(** * bits-n-bytes shelf engine: slots, shelves and the shelf managers

    A shallow embedding of [models/__init__.py] (Item, Slot, Shelf),
    [shelf_manager.py] and [bnb/old_shelf_manager.py], and the properties
    of the weight-event detection that the specification states.

    Conventions of the embedding.
    - Python [float] and [int] weights are exact rationals [Q]; rounding
      error, infinities and NaN are outside the model.  Comparisons are the
      boolean tests of [Q], so two representations of one rational compare
      equal, as two equal floats do.
    - Python [int] counters are [Z].  [Slot._last_neg] is assigned [False],
      [0] and [abs(quantity)] by the source and only ever compared with
      [== 0]; it is a [Z] with [False] read as [0] (in Python
      [False == 0]).
    - A method that mutates [self] returns an [outcome]: the object after
      the call, the observable events of the call in order (lines printed
      and cart callbacks invoked), and the returned value or the raised
      exception.  State changes made before an exception is raised are
      kept, as in Python.
    - A Python [dict] keyed by strings is a [gmap string _]; the result
      dictionary of [Shelf.update], keyed by [Item] and iterated in
      insertion order, is an association list. *)

From Stdlib Require Import ZArith QArith Qround Qabs Lqa Lia List Bool.
From stdpp Require Import base gmap strings.
Import ListNotations.

(** ** Python prelude *)

Module Py.

Inductive exc : Set :=
  | TypeError
  | ValueError
  | IndexError
  | KeyError
  | ZeroDivisionError
  | StatisticsError.

Inductive result (A : Type) : Type :=
  | Ok (a : A)
  | Raise (e : exc).
Arguments Ok {A} a.
Arguments Raise {A} e.

Definition exc_eqb (a b : exc) : bool :=
  match a, b with
  | TypeError, TypeError | ValueError, ValueError | IndexError, IndexError
  | KeyError, KeyError | ZeroDivisionError, ZeroDivisionError
  | StatisticsError, StatisticsError => true
  | _, _ => false
  end.

(** The expression after [except].  [except A:] names a class,
    [except (A, B):] a tuple of classes.  [except A | B:] names the value
    of [A | B], which for two classes is a [types.UnionType] object: it is
    neither an exception class nor a tuple, and matching a raised exception
    against it raises [TypeError] ("catching classes that do not inherit
    from BaseException is not allowed").  The expression is only evaluated
    when the body of the [try] has raised. *)
Inductive except_expr : Set :=
  | ExceptClass (c : exc)
  | ExceptTuple (cs : list exc)
  | ExceptUnion (a b : exc).

Definition except_matches (h : except_expr) (raised : exc) : result bool :=
  match h with
  | ExceptClass c => Ok (exc_eqb c raised)
  | ExceptTuple cs => Ok (existsb (fun c => exc_eqb c raised) cs)
  | ExceptUnion _ _ => Raise TypeError
  end.

(** [x < y] on numbers. *)
Definition Qltb (x y : Q) : bool := negb (Qle_bool y x).

(** [x % y] on floats: the result has the sign of [y];
    [ZeroDivisionError] when [y] is zero. *)
Definition float_mod (x y : Q) : result Q :=
  if Qeq_bool y 0 then Raise ZeroDivisionError
  else Ok (x - inject_Z (Qfloor (x / y)) * y)%Q.

(** [round(x)] with one argument: the nearest integer, ties to even. *)
Definition round (x : Q) : Z :=
  let f := Qfloor x in
  match (x - inject_Z f ?= 1 # 2)%Q with
  | Lt => f
  | Gt => (f + 1)%Z
  | Eq => if Z.even f then f else (f + 1)%Z
  end.

(** [sorted(data)]: a stable insertion sort. *)
Fixpoint insort (x : Q) (l : list Q) : list Q :=
  match l with
  | [] => [x]
  | y :: l' => if Qle_bool x y then x :: y :: l' else y :: insort x l'
  end.

Definition sorted (data : list Q) : list Q := fold_right insort [] data.

(** [statistics.median]. *)
Definition median (data : list Q) : result Q :=
  let data := sorted data in
  let n := length data in
  if Nat.eqb n 0 then Raise StatisticsError
  else if Nat.odd n then Ok (nth (n / 2) data 0%Q)
  else
    let i := (n / 2)%nat in
    Ok ((nth (i - 1) data 0 + nth i data 0) / 2)%Q.

End Py.
Import Py.

(** ** models/__init__.py *)

Definition CERTAINTY_CONSTANT : nat := 2.
Definition ITERS_REQD_NO_UPDATE : Z := 0.
Definition EXTRANEOUS_VALUE_LIMIT : Q := 5000.

Record Item : Set := {
  item_id : Z;
  name : string;
  upc : string;
  price : Q;
  units : Z;
  avg_weight : Q;
  std_weight : Q;
  thumbnail_url : string;
  vision_class : string
}.

(** [Item.__eq__] (and [__hash__]): items are equal when their ids are. *)
Definition item_eqb (a b : Item) : bool := (item_id a =? item_id b)%Z.

(** Lines written by [print], one constructor per [print] statement of the
    modelled sources, with the values the f-string interpolates. *)
Inductive print_line : Type :=
  | MsgSameWeights
  | MsgWeightDiff (difference_g : Q)
  | MsgRemainder (remainder_weight : Q)
  | MsgExtraneous
  | MsgPlacedBack (quantity : Z)
  | MsgRemoved (quantity : Z)
  | MsgMissingField
  | MsgInvalidData
  | MsgCastError
  | MsgNewShelf
  | MsgNotInItemMap.

Inductive event : Type :=
  | Print (line : print_line)
  | AddToCart (item : Item)
  | RemoveFromCart (item : Item).

Record outcome (S A : Type) : Type := {
  post : S;
  trace : list event;
  ret : result A
}.
Arguments post {S A} o.
Arguments trace {S A} o.
Arguments ret {S A} o.

Record Slot : Type := {
  items : list Item;
  _previous_weight_g : option Q;
  _conversion_factor : Q;
  _weight_store : list Q;
  _last_pos : bool;
  _last_neg : Z;
  _previous_raw_weight : option Q;
  _iterations_no_update : Z
}.

Module SlotImpl.

(** [Slot.__init__] *)
Definition __init__ (items : list Item) : Slot :=
  {| items := items;
     _previous_weight_g := None;
     _conversion_factor := 0.44;
     _weight_store := repeat 0%Q CERTAINTY_CONSTANT;
     _last_pos := false;
     _last_neg := 0;
     _previous_raw_weight := Some 0%Q;
     _iterations_no_update := 0 |}.

Definition set_previous_weight (self : Slot) (weight : option Q) : Slot :=
  {| items := items self;
     _previous_weight_g := weight;
     _conversion_factor := _conversion_factor self;
     _weight_store := _weight_store self;
     _last_pos := _last_pos self;
     _last_neg := _last_neg self;
     _previous_raw_weight := _previous_raw_weight self;
     _iterations_no_update := _iterations_no_update self |}.

Definition get_previous_weight (self : Slot) : option Q :=
  _previous_weight_g self.

Definition set_previous_raw_weight (self : Slot) (weight : option Q) : Slot :=
  {| items := items self;
     _previous_weight_g := _previous_weight_g self;
     _conversion_factor := _conversion_factor self;
     _weight_store := _weight_store self;
     _last_pos := _last_pos self;
     _last_neg := _last_neg self;
     _previous_raw_weight := weight;
     _iterations_no_update := _iterations_no_update self |}.

Definition get_previous_raw_weight (self : Slot) : option Q :=
  _previous_raw_weight self.

Definition set_conversion_factor (self : Slot) (conversion_factor : Q) : Slot :=
  {| items := items self;
     _previous_weight_g := _previous_weight_g self;
     _conversion_factor := conversion_factor;
     _weight_store := _weight_store self;
     _last_pos := _last_pos self;
     _last_neg := _last_neg self;
     _previous_raw_weight := _previous_raw_weight self;
     _iterations_no_update := _iterations_no_update self |}.

(** Assignment to [self._weight_store]. *)
Definition with_weight_store (self : Slot) (store : list Q) : Slot :=
  {| items := items self;
     _previous_weight_g := _previous_weight_g self;
     _conversion_factor := _conversion_factor self;
     _weight_store := store;
     _last_pos := _last_pos self;
     _last_neg := _last_neg self;
     _previous_raw_weight := _previous_raw_weight self;
     _iterations_no_update := _iterations_no_update self |}.

(** Assignment to the two latches and the no-update counter. *)
Definition with_latches (self : Slot) (last_pos : bool) (last_neg : Z)
    (iterations_no_update : Z) : Slot :=
  {| items := items self;
     _previous_weight_g := _previous_weight_g self;
     _conversion_factor := _conversion_factor self;
     _weight_store := _weight_store self;
     _last_pos := last_pos;
     _last_neg := last_neg;
     _previous_raw_weight := _previous_raw_weight self;
     _iterations_no_update := iterations_no_update |}.

(** [Slot.calc_conversion_factor] *)
Definition calc_conversion_factor (self : Slot)
    (zero_weight_g loaded_weight_g known_weight_g : Q) : outcome Slot Q :=
  if Qeq_bool loaded_weight_g zero_weight_g then
    {| post := self;
       trace := [Print MsgSameWeights];
       ret := Ok (_conversion_factor self) |}
  else
    let self :=
      set_conversion_factor self
        (known_weight_g / (loaded_weight_g - zero_weight_g))%Q in
    {| post := self; trace := []; ret := Ok (_conversion_factor self) |}.

(** The hysteresis step of [Slot.update] (source lines 190-215): the slot
    after it, the line it prints and [quantity_to_modify_cart]. *)
Definition classify (self : Slot) (item : Item) (difference_g remainder_weight : Q)
    : Slot * list event * Z :=
  if Qle_bool (avg_weight item - std_weight item) remainder_weight
     || Qle_bool remainder_weight (std_weight item)
  then
    let quantity := round (difference_g / avg_weight item) in
    if (0 <? quantity)%Z then
      if negb (_last_pos self) then
        (with_latches self true 0 0, [Print (MsgPlacedBack quantity)], quantity)
      else (self, [], 0%Z)
    else if (quantity <? 0)%Z then
      if (_last_neg self =? 0)%Z then
        (with_latches self false (Z.abs quantity) 0,
         [Print (MsgRemoved quantity)], quantity)
      else (self, [], 0%Z)
    else if (ITERS_REQD_NO_UPDATE <=? _iterations_no_update self)%Z then
      (with_latches self false 0 (_iterations_no_update self), [], 0%Z)
    else
      (with_latches self (_last_pos self) (_last_neg self)
         (_iterations_no_update self + 1), [], 0%Z)
  else (self, [], 0%Z).

(** [Slot.update] *)
Definition update (self : Slot) (new_weight : Q) (print_debug : bool)
    : outcome Slot (list (Item * Z)) :=
  let self := set_previous_raw_weight self (Some new_weight) in
  match items self with
  | [] => {| post := self; trace := []; ret := Raise IndexError |}
  | item :: _ =>
    let normalized_weight_g := (new_weight * _conversion_factor self)%Q in
    let inserted := normalized_weight_g :: _weight_store self in
    let oldest_weight := List.last inserted 0%Q in
    let self := with_weight_store self (List.removelast inserted) in
    match median (_weight_store self) with
    | Raise e => {| post := self; trace := []; ret := Raise e |}
    | Ok rolling_median =>
      match _previous_weight_g self with
      | None => {| post := self; trace := []; ret := Raise TypeError |}
      | Some previous =>
        let difference_g := (rolling_median - previous)%Q in
        match float_mod difference_g (avg_weight item) with
        | Raise e => {| post := self; trace := []; ret := Raise e |}
        | Ok modulo =>
          let remainder_weight := Qabs modulo in
          let debug :=
            if print_debug
            then [Print (MsgWeightDiff difference_g);
                  Print (MsgRemainder remainder_weight)]
            else [] in
          if Qltb EXTRANEOUS_VALUE_LIMIT (Qabs difference_g) then
            {| post := self;
               trace := debug ++ [Print MsgExtraneous];
               ret := Ok [] |}
          else
            let '(self, printed, quantity_to_modify_cart) :=
              classify self item difference_g remainder_weight in
            {| post := set_previous_weight self (Some oldest_weight);
               trace := debug ++ printed;
               ret := Ok [(item, quantity_to_modify_cart)] |}
        end
      end
    end
  end.

End SlotImpl.

Record datetime : Set := {
  year : Z; month : Z; day : Z;
  hour : Z; minute : Z; second : Z; microsecond : Z
}.

Record Shelf : Type := {
  slots : list Slot;
  last_report_time : datetime
}.

Module ShelfImpl.

(** [Shelf.__init__]: [created_time] is not used by the source. *)
Definition __init__ (slots : list Slot) (created_time : datetime)
    (initial_weights : list (option Q)) : Shelf :=
  let j := Nat.min (length initial_weights) (length slots) in
  {| slots :=
       fold_left
         (fun slots i =>
            match initial_weights !! i with
            | Some (Some w) =>
                alter (fun s => SlotImpl.set_previous_weight s (Some w)) i slots
            | _ => slots
            end)
         (seq 0 j) slots;
     last_report_time :=
       {| year := 2022; month := 2; day := 2;
          hour := 2; minute := 2; second := 2; microsecond := 2 |} |}.

(** [results_dict[item_added] = quantity_added] when the key is new,
    [+= quantity_added] otherwise; keys compare by [Item.__eq__] and the
    dictionary keeps the key object that was inserted first. *)
Fixpoint dict_add (results_dict : list (Item * Z)) (item_added : Item)
    (quantity_added : Z) : list (Item * Z) :=
  match results_dict with
  | [] => [(item_added, quantity_added)]
  | (k, v) :: rest =>
      if item_eqb k item_added then (k, (v + quantity_added)%Z) :: rest
      else (k, v) :: dict_add rest item_added quantity_added
  end.

Definition dict_add_all (results_dict items_added_list : list (Item * Z))
    : list (Item * Z) :=
  fold_left (fun d p => dict_add d (fst p) (snd p)) items_added_list results_dict.

(** One iteration of the loop [for i in range(4)] of [Shelf.update], on the
    slots and the [results_dict] reached so far; an exception raised by an
    earlier iteration has already left the loop. *)
Definition update_iteration (raw_weights : list (option Q))
    (acc : outcome (list Slot) (list (Item * Z))) (i : nat)
    : outcome (list Slot) (list (Item * Z)) :=
  match ret acc with
  | Raise _ => acc
  | Ok results_dict =>
    match post acc !! i with
    | None => acc
    | Some slot =>
      match raw_weights !! i with
      | None => {| post := post acc; trace := trace acc; ret := Raise IndexError |}
      | Some None => acc
      | Some (Some raw_weight) =>
          let o := SlotImpl.update slot raw_weight false in
          {| post := <[i := post o]> (post acc);
             trace := trace acc ++ trace o;
             ret := match ret o with
                    | Ok items_added_list =>
                        Ok (dict_add_all results_dict items_added_list)
                    | Raise e => Raise e
                    end |}
      end
    end
  end.

(** [Shelf.update] *)
Definition update (self : Shelf) (raw_weights : list (option Q))
    (update_received_time : datetime) : outcome Shelf (list (Item * Z)) :=
  let o :=
    fold_left (update_iteration raw_weights) (seq 0 4)
      {| post := slots self; trace := []; ret := Ok [] |} in
  {| post := {| slots := post o; last_report_time := update_received_time |};
     trace := trace o;
     ret := ret o |}.

End ShelfImpl.

(** ** database.py: the mock catalog entries the slot tables refer to *)

Module database.

Definition mock_item (item_id : Z) (name upc : string) (price : Q) (units : Z)
    (avg_weight std_weight : Q) (vision_class : string) : Item :=
  {| item_id := item_id; name := name; upc := upc; price := price;
     units := units; avg_weight := avg_weight; std_weight := std_weight;
     thumbnail_url := "images/item_placeholder.png";
     vision_class := vision_class |}.

Definition MOCK_ITEMS : gmap Z Item :=
  list_to_map
    [ (1%Z, mock_item 1 "Little Bites Chocolate" "123456789012" 2.10 100 47 10 "pouch");
      (2%Z, mock_item 2 "Little Bites Party" "234567890123" 2.10 50 47 10 "pouch");
      (3%Z, mock_item 3 "Skittles Gummies" "345678901234" 2.40 75 164.4 15 "bottle");
      (4%Z, mock_item 4 "Swedish Fish Mini Tropical" "456789012345" 3.50 120 226 10 "pouch");
      (5%Z, mock_item 5 "Sour Patch Peach" "567890123456" 3.50 90 228 15 "cylinder");
      (6%Z, mock_item 6 "Brownie Brittle Chocolate Chip" "678901234567" 34.99 60 78 10 "rectangle");
      (7%Z, mock_item 7 "Swedish Fish Original" "789012345678" 19.99 100 141 10 "pouch");
      (8%Z, mock_item 8 "Welch's Fruit Snacks" "890123456789" 39.99 40 142 14 "rectangle");
      (9%Z, mock_item 9 "Sour Patch Kids" "" 3.50 100 226 20 "sour-patch");
      (10%Z, mock_item 10 "12 Pack Wild Cherry Pepsi" "" 5.50 100 4000 500 "pepsi-box");
      (11%Z, mock_item 11 "12 Pack Loganberry" "" 5.50 100 4000 500 "loganberry-box");
      (12%Z, mock_item 12 "EMPTY" "" 0 100 10000000 0 "");
      (13%Z, mock_item 13 "Wild Cherry Pepsi Can" "" 2.50 100 200 20 "");
      (14%Z, mock_item 14 "Little Bites Blueberry" "123456789012" 2.10 100 47 10 "pouch") ].

(** [MOCK_ITEMS[k]] for a key of the table. *)
Definition mock (k : Z) : list Item :=
  match MOCK_ITEMS !! k with
  | Some item => [item]
  | None => []
  end.

End database.

(** ** shelf_manager.py and bnb/old_shelf_manager.py *)

(** A decoded JSON value. *)
#[local] Set Warnings "-register-all".
Inductive json : Type :=
  | JNull
  | JBool (b : bool)
  | JNumber (x : Q)
  | JString (s : string)
  | JArray (elements : list json)
  | JObject (members : list (string * json)).

Definition NUM_SLOTS_PER_SHELF : nat := 4.
Definition LOOP_DELAY_MS : Q := 200.

Record ShelfManager : Type := {
  _signal_end : bool;
  _last_loop_ms : Q;
  _mac_to_shelf_map : gmap string Shelf
}.

Module ManagerImpl.

(** [ShelfManager.__init__]; the two callbacks it stores are the
    [AddToCart] and [RemoveFromCart] events of the trace. *)
Definition __init__ : ShelfManager :=
  {| _signal_end := false; _last_loop_ms := 0; _mac_to_shelf_map := ∅ |}.

Definition with_mac_to_shelf_map (self : ShelfManager)
    (m : gmap string Shelf) : ShelfManager :=
  {| _signal_end := _signal_end self;
     _last_loop_ms := _last_loop_ms self;
     _mac_to_shelf_map := m |}.

(** A list or a dict cannot be hashed, so it cannot be looked up in a
    dict ([TypeError]). *)
Definition hashable (v : json) : bool :=
  match v with
  | JArray _ | JObject _ => false
  | _ => true
  end.

(** [key in d] for a dict [d] whose keys are strings: only an equal string
    is found. *)
Definition dict_contains {V : Type} (d : gmap string V) (key : json)
    : result bool :=
  if hashable key then
    match key with
    | JString s => Ok (bool_decide (is_Some (d !! s)))
    | _ => Ok false
    end
  else Raise TypeError.

Section Routing.

(** [float(s)] on a string: Python's own parser, [None] where it raises
    [ValueError]. *)
Variable parse_float : string -> option Q.

(** The static table [SHELF_ITEM_MAP] of the module, and the callback each
    branch of the final loop invokes: the two sources differ in these
    only (and in how the payload is decoded to [json_data]). *)
Variable SHELF_ITEM_MAP : gmap string (list Slot).
Variable cb_positive cb_negative : Item -> event.

(** The builtin [float]. *)
Definition float (v : json) : result Q :=
  match v with
  | JNumber x => Ok x
  | JBool b => Ok (if b then 1 else 0)%Q
  | JString s =>
      match parse_float s with
      | Some x => Ok x
      | None => Raise ValueError
      end
  | JNull | JArray _ | JObject _ => Raise TypeError
  end.

(** The loop "Cast all datapoints to floats":
    [try: data.append(float(p)) except TypeError | ValueError: ...] *)
Fixpoint cast_datapoints (raw_data : list json) (data : list (option Q))
    : list event * result (list (option Q)) :=
  match raw_data with
  | [] => ([], Ok data)
  | raw_data_point :: rest =>
    match float raw_data_point with
    | Ok x => cast_datapoints rest (data ++ [Some x])
    | Raise e =>
      match except_matches (ExceptUnion TypeError ValueError) e with
      | Raise e' => ([], Raise e')
      | Ok false => ([], Raise e)
      | Ok true =>
          let '(printed, r) := cast_datapoints rest (data ++ [None]) in
          (Print MsgCastError :: printed, r)
      end
    end
  end.

(** The loop over [item_quantity_changes]. *)
Definition invoke_callbacks (item_quantity_changes : list (Item * Z))
    : list event :=
  flat_map
    (fun '(item, quantity_change) =>
       if (0 <? quantity_change)%Z then
         repeat (cb_positive item) (Z.to_nat quantity_change)
       else if (quantity_change <? 0)%Z then
         repeat (cb_negative item) (Z.to_nat (Z.abs quantity_change))
       else [])
    item_quantity_changes.

(** The body of [on_shelf_data_cb] / [old_on_shelf_data_cb] once the
    payload is decoded to the dict [json_data]; [received_time] is the
    value of [datetime.datetime.now()]. *)
Definition route (self : ShelfManager) (received_time : datetime)
    (json_data : gmap string json) : outcome ShelfManager unit :=
  match json_data !! "id", json_data !! "data" with
  | Some mac, Some raw_data =>
    match raw_data with
    | JArray raw_data =>
      if negb (Nat.eqb (length raw_data) NUM_SLOTS_PER_SHELF) then
        {| post := self; trace := [Print MsgInvalidData]; ret := Ok tt |}
      else
        match cast_datapoints raw_data [] with
        | (printed, Raise e) =>
            {| post := self; trace := printed; ret := Raise e |}
        | (printed, Ok data) =>
          match dict_contains (_mac_to_shelf_map self) mac with
          | Raise e => {| post := self; trace := printed; ret := Raise e |}
          | Ok false =>
            match dict_contains SHELF_ITEM_MAP mac with
            | Raise e =>
                {| post := self;
                   trace := printed ++ [Print MsgNewShelf];
                   ret := Raise e |}
            | Ok false =>
                {| post := self;
                   trace := printed ++ [Print MsgNewShelf; Print MsgNotInItemMap];
                   ret := Ok tt |}
            | Ok true =>
              match mac with
              | JString mac =>
                match SHELF_ITEM_MAP !! mac with
                | Some table_slots =>
                    let new_shelf :=
                      ShelfImpl.__init__ table_slots received_time data in
                    {| post :=
                         with_mac_to_shelf_map self
                           (<[mac := new_shelf]> (_mac_to_shelf_map self));
                       trace := printed ++ [Print MsgNewShelf];
                       ret := Ok tt |}
                | None =>
                    {| post := self;
                       trace := printed ++ [Print MsgNewShelf];
                       ret := Raise KeyError |}
                end
              | _ =>
                  {| post := self;
                     trace := printed ++ [Print MsgNewShelf];
                     ret := Raise KeyError |}
              end
            end
          | Ok true =>
            match mac with
            | JString mac =>
              match _mac_to_shelf_map self !! mac with
              | Some shelf =>
                  let o := ShelfImpl.update shelf data received_time in
                  let self :=
                    with_mac_to_shelf_map self
                      (<[mac := post o]> (_mac_to_shelf_map self)) in
                  match ret o with
                  | Raise e =>
                      {| post := self;
                         trace := printed ++ trace o;
                         ret := Raise e |}
                  | Ok item_quantity_changes =>
                      {| post := self;
                         trace :=
                           printed ++ trace o
                           ++ invoke_callbacks item_quantity_changes;
                         ret := Ok tt |}
                  end
              | None =>
                  {| post := self; trace := printed; ret := Raise KeyError |}
              end
            | _ => {| post := self; trace := printed; ret := Raise KeyError |}
            end
          end
        end
    | _ => {| post := self; trace := [Print MsgInvalidData]; ret := Ok tt |}
    end
  | _, _ => {| post := self; trace := [Print MsgMissingField]; ret := Ok tt |}
  end.

End Routing.

End ManagerImpl.

(** shelf_manager.py *)
Module shelf_manager.

Definition SHELF_ITEM_MAP : gmap string (list Slot) :=
  list_to_map
    [ ("MAC_1", repeat (SlotImpl.__init__ []) 4);
      ("MAC_2", repeat (SlotImpl.__init__ []) 4);
      ("MAC_3", repeat (SlotImpl.__init__ []) 4);
      ("MAC_4", repeat (SlotImpl.__init__ []) 4) ].

(** [ShelfManager.on_shelf_data_cb]: a positive change calls
    [add_to_cart_cb], a negative one [remove_from_cart_cb]. *)
Definition on_shelf_data_cb (parse_float : string -> option Q) :=
  ManagerImpl.route parse_float SHELF_ITEM_MAP AddToCart RemoveFromCart.

End shelf_manager.

(** bnb/old_shelf_manager.py *)
Module old_shelf_manager.

Definition KNOWN_TARE_WEIGHT_G : Q := 226.

Definition SHELF_ITEM_MAP : gmap string (list Slot) :=
  list_to_map
    [ ("MAC_1", repeat (SlotImpl.__init__ []) 4);
      ("80:65:99:49:EF:8E",
        map (fun k => SlotImpl.__init__ (database.mock k)) [9; 14; 1; 6]%Z);
      ("80:65:99:E3:EF:50",
        map (fun k => SlotImpl.__init__ (database.mock k)) [9; 14; 1; 6]%Z);
      ("80:65:99:E3:8B:92",
        map (fun k => SlotImpl.__init__ (database.mock k)) [13; 11; 10; 12]%Z) ].

(** [ShelfManager.old_on_shelf_data_cb]: a positive change calls
    [remove_from_cart_cb], a negative one [add_to_cart_cb]. *)
Definition old_on_shelf_data_cb (parse_float : string -> option Q) :=
  ManagerImpl.route parse_float SHELF_ITEM_MAP RemoveFromCart AddToCart.

(** [l[i]] for a Python list and an [int] index: a negative index counts
    from the end; the position, or [IndexError] outside the list. *)
Definition list_position {A : Type} (l : list A) (i : Z) : result nat :=
  let n := Z.of_nat (length l) in
  let j := if (i <? 0)%Z then (i + n)%Z else i in
  if (0 <=? j)%Z && (j <? n)%Z then Ok (Z.to_nat j) else Raise IndexError.

(** [self._mac_to_shelf_map[shelf_mac].slots[slot_index].m(...)] for a
    method [m] of [Slot] that changes the slot and returns [r]: the manager
    with that one slot changed. *)
Definition on_slot {R : Type} (self : ShelfManager) (shelf : Shelf)
    (shelf_mac : string) (slot_index : Z) (m : Slot -> Slot * R)
    : ShelfManager * result R :=
  match list_position (slots shelf) slot_index with
  | Raise e => (self, Raise e)
  | Ok j =>
    match slots shelf !! j with
    | None => (self, Raise IndexError)
    | Some slot =>
        let '(slot', r) := m slot in
        (ManagerImpl.with_mac_to_shelf_map self
           (<[shelf_mac :=
                {| slots := <[j := slot']> (slots shelf);
                   last_report_time := last_report_time shelf |}]>
              (_mac_to_shelf_map self)),
         Ok r)
    end
  end.

(** [ShelfManager.set_conversion_factor]; it returns [None]. *)
Definition set_conversion_factor (self : ShelfManager) (shelf_mac : string)
    (slot_index : Z) (conversion_factor : Q) : ShelfManager * result unit :=
  match _mac_to_shelf_map self !! shelf_mac with
  | Some shelf =>
      on_slot self shelf shelf_mac slot_index
        (fun slot =>
           (SlotImpl.set_conversion_factor slot conversion_factor, tt))
  | None => (self, Ok tt)
  end.

(** [ShelfManager.tare_shelf]: the new factor, or [None] for a shelf the
    manager does not hold; the second component is what the slot printed. *)
Definition tare_shelf (self : ShelfManager) (shelf_mac : string)
    (slot_index : Z) (zero_weight loaded_weight : Q)
    : ShelfManager * result (option Q * list event) :=
  match _mac_to_shelf_map self !! shelf_mac with
  | Some shelf =>
      on_slot self shelf shelf_mac slot_index
        (fun slot =>
           let o :=
             SlotImpl.calc_conversion_factor slot zero_weight loaded_weight
               KNOWN_TARE_WEIGHT_G in
           (post o,
            (match ret o with Ok f => Some f | Raise _ => None end, trace o)))
  | None => (self, Ok (None, []))
  end.

(** [ShelfManager.get_most_recent_value]: the raw weight last recorded by
    the slot; for a shelf the manager does not hold it prints one line and
    returns [None]. *)
Definition get_most_recent_value (self : ShelfManager) (shelf_mac : string)
    (slot_index : Z) : list string * result (option Q) :=
  match _mac_to_shelf_map self !! shelf_mac with
  | Some shelf =>
    match list_position (slots shelf) slot_index with
    | Raise e => ([], Raise e)
    | Ok j =>
      match slots shelf !! j with
      | Some slot => ([], Ok (SlotImpl.get_previous_raw_weight slot))
      | None => ([], Raise IndexError)
      end
    end
  | None => (["Get most recent value: Shelf not found"], Ok None)
  end.

End old_shelf_manager.

(** ** ShelfManager.main_loop (the same text in both managers)

    The loop talks to two things outside it: the clock and the flag
    [_signal_end], which another thread sets.  Both are given by the
    environment: [clock k] is the value of the [k]-th call of [time.time()]
    (in seconds), [signal_end_at i] the value of the flag when the [i]-th
    iteration holds the lock.  The loop itself is sequential; fuel bounds
    the iterations of the outer [while True] and of the inner busy wait. *)

Module Watchdog.

Record env : Type := {
  clock : nat -> Q;
  signal_end_at : nat -> bool
}.

(** [while time.time() < (self._last_loop_ms + LOOP_DELAY_MS) / 1000: pass],
    starting with read number [k] of the clock: the number of the read that
    ended the wait. *)
Fixpoint busy_wait (fuel : nat) (e : env) (self_last_loop_ms : Q) (k : nat)
    : option nat :=
  match fuel with
  | O => None
  | S fuel =>
      if Qltb (clock e k) ((self_last_loop_ms + LOOP_DELAY_MS) / 1000)
      then busy_wait fuel e self_last_loop_ms (S k)
      else Some k
  end.

(** What one run shows: for every completed iteration the clock value that
    ended its wait, and whether the loop has left through [break]. *)
Record run : Type := {
  released_at : list Q;
  exited : bool
}.

(** The [while True] loop at iteration [i], the next clock read being
    number [k].  [last_loop_ms] is the local variable the last line of the
    body assigns; the wait reads the attribute [self._last_loop_ms], which
    the body never assigns. *)
Fixpoint loop (fuel wait_fuel : nat) (e : env) (self_last_loop_ms : Q)
    (last_loop_ms : option Q) (k i : nat) : run :=
  match fuel with
  | O => {| released_at := []; exited := false |}
  | S fuel =>
      if signal_end_at e i then {| released_at := []; exited := true |}
      else
        match busy_wait wait_fuel e self_last_loop_ms k with
        | None => {| released_at := []; exited := false |}
        | Some k' =>
            let last_loop_ms := Some (clock e (S k') * 1000)%Q in
            let r :=
              loop fuel wait_fuel e self_last_loop_ms last_loop_ms
                (S (S k')) (S i) in
            {| released_at := clock e k' :: released_at r;
               exited := exited r |}
        end
  end.

(** [ShelfManager.main_loop] *)
Definition main_loop (fuel wait_fuel : nat) (e : env) : run :=
  let self_last_loop_ms := (clock e 0 * 1000)%Q in
  loop fuel wait_fuel e self_last_loop_ms None 1 0.

End Watchdog.


(** ** models/__init__.py: Cart *)

Module CartImpl.

(** [Cart.items] is a dict from [Item] (compared by [Item.__eq__]) to a
    count, kept in insertion order. *)
Record Cart : Type := {
  items : list (Item * Z);
  subtotal : Q
}.

(** [Cart.__init__] *)
Definition __init__ : Cart := {| items := []; subtotal := 0 |}.

(** [item in self.items] *)
Definition contains (d : list (Item * Z)) (item : Item) : bool :=
  existsb (fun p => item_eqb (fst p) item) d.

(** [self.items[item] += n] for a key that is present. *)
Fixpoint increment (d : list (Item * Z)) (item : Item) (n : Z)
    : list (Item * Z) :=
  match d with
  | [] => []
  | (k, v) :: rest =>
      if item_eqb k item then (k, (v + n)%Z) :: rest
      else (k, v) :: increment rest item n
  end.

(** [Cart.add] *)
Definition add (self : Cart) (item : Item) : Cart :=
  if contains (items self) item then
    {| items := increment (items self) item 1; subtotal := subtotal self |}
  else
    {| items := items self ++ [(item, 1%Z)]; subtotal := subtotal self |}.

(** [Cart.remove] *)
Definition remove (self : Cart) (item : Item) : Cart :=
  if contains (items self) item then
    {| items := increment (items self) item (-1); subtotal := subtotal self |}
  else self.

(** [Cart.get_subtotal] *)
Definition get_subtotal (self : Cart) : Q := subtotal self.

(** [self.items[item]] where the key is present, [None] where the lookup
    would raise [KeyError]. *)
Fixpoint quantity (d : list (Item * Z)) (item : Item) : option Z :=
  match d with
  | [] => None
  | (k, v) :: rest => if item_eqb k item then Some v else quantity rest item
  end.

End CartImpl.
(** * Notions used by the statements *)

Module Notions.
Import SlotImpl.

(** A calibration operation on a slot. *)
Inductive calibration : Type :=
  | Calc (zero_weight_g loaded_weight_g known_weight_g : Q)
  | SetFactor (conversion_factor : Q).

Definition calibrate (self : Slot) (op : calibration) : Slot :=
  match op with
  | Calc z l k => post (calc_conversion_factor self z l k)
  | SetFactor f => set_conversion_factor self f
  end.

(** The operations that cannot leave a factor that is zero or negative. *)
Definition positive_calibration (op : calibration) : Prop :=
  match op with
  | Calc z l k => (l == z \/ 0 < k / (l - z))%Q
  | SetFactor f => (0 < f)%Q
  end.

(** The slot states a program can reach: a constructed slot, and whatever
    its public methods make of a reachable one. *)
Inductive reachable : Slot -> Prop :=
  | reach_init (items : list Item) : reachable (__init__ items)
  | reach_update (s : Slot) (new_weight : Q) (print_debug : bool) :
      reachable s -> reachable (post (update s new_weight print_debug))
  | reach_set_previous_weight (s : Slot) (w : option Q) :
      reachable s -> reachable (set_previous_weight s w)
  | reach_set_previous_raw_weight (s : Slot) (w : option Q) :
      reachable s -> reachable (set_previous_raw_weight s w)
  | reach_set_conversion_factor (s : Slot) (f : Q) :
      reachable s -> reachable (set_conversion_factor s f)
  | reach_calc_conversion_factor (s : Slot) (z l k : Q) :
      reachable s -> reachable (post (calc_conversion_factor s z l k)).

(** Both latches pending: the positive latch is set and the negative latch
    holds a nonzero count. *)
Definition both_pending (s : Slot) : Prop :=
  _last_pos s = true /\ _last_neg s <> 0%Z.

(** The value [self._weight_store.pop()] returns in [update]. *)
Definition evicted (self : Slot) (new_weight : Q) : Q :=
  List.last ((new_weight * _conversion_factor self)%Q :: _weight_store self) 0%Q.

(** The buffer after the push and the pop of [update]. *)
Definition advanced_store (self : Slot) (new_weight : Q) : list Q :=
  List.removelast
    ((new_weight * _conversion_factor self)%Q :: _weight_store self).

(** A stream of readings fed to one slot, as [Shelf.update] feeds them
    (without debug output): the slot at the end and what each call
    returned. *)
Fixpoint feed (self : Slot) (raw_weights : list Q)
    : Slot * list (result (list (Item * Z))) :=
  match raw_weights with
  | [] => (self, [])
  | w :: rest =>
      let o := update self w false in
      let '(self', returned) := feed (post o) rest in
      (self', ret o :: returned)
  end.


(** How often a trace invokes each cart callback with an item equal
    ([Item.__eq__]) to [item]. *)
Definition is_add_of (item : Item) (e : event) : bool :=
  match e with
  | AddToCart i => item_eqb i item
  | _ => false
  end.

Definition is_remove_of (item : Item) (e : event) : bool :=
  match e with
  | RemoveFromCart i => item_eqb i item
  | _ => false
  end.

Definition add_calls (item : Item) (tr : list event) : nat :=
  length (List.filter (is_add_of item) tr).

Definition remove_calls (item : Item) (tr : list event) : nat :=
  length (List.filter (is_remove_of item) tr).

Definition is_cart_call (e : event) : bool :=
  match e with
  | Print _ => false
  | AddToCart _ | RemoveFromCart _ => true
  end.


(** A slot of item 1 (47 g) as [Shelf.__init__] leaves it after a first
    message reporting 0. *)
Definition fresh_slot : Slot :=
  set_previous_weight (__init__ (database.mock 1)) (Some 0%Q).

(** A message [{"id": mac, "data": data}] as the JSON decoder returns it. *)
Definition message (mac : string) (data : list json) : gmap string json :=
  <["id" := JString mac]> (<["data" := JArray data]> ∅).

(** No string is a number for the examples: they contain none. *)
Definition no_strings (s : string) : option Q := None.

(** The manager holds shelves of identifiers of the table only. *)
Definition registered_only (table : gmap string (list Slot))
    (self : ShelfManager) : Prop :=
  forall mac : string,
    is_Some (_mac_to_shelf_map self !! mac) -> is_Some (table !! mac).

Definition noon : datetime :=
  {| year := 2025; month := 1; day := 1;
     hour := 12; minute := 0; second := 0; microsecond := 0 |}.

(** A clock that advances 10 ms between two reads, and a stop flag that
    is set from iteration [n] on ([stop_never]: not at all). *)
Definition ten_ms_clock (k : nat) : Q := (inject_Z (Z.of_nat k) * (1 # 100))%Q.

Definition stop_never : Watchdog.env :=
  {| Watchdog.clock := ten_ms_clock;
     Watchdog.signal_end_at := fun _ => false |}.

Definition stop_from (n : nat) : Watchdog.env :=
  {| Watchdog.clock := ten_ms_clock;
     Watchdog.signal_end_at := fun i => Nat.leb n i |}.

(** The keys of a result dictionary, as [Item.__hash__] sees them. *)
Definition item_ids (d : list (Item * Z)) : list Z :=
  map (fun p => item_id (fst p)) d.

(** The other callback. *)
Definition swap_callback (e : event) : event :=
  match e with
  | Print l => Print l
  | AddToCart i => RemoveFromCart i
  | RemoveFromCart i => AddToCart i
  end.


(** What every iteration of the loop of [Shelf.update] keeps. *)
Definition loop_invariant (n : nat)
    (acc : outcome (list Slot) (list (Item * Z))) : Prop :=
  length (post acc) = n
  /\ Forall (fun e => is_cart_call e = false) (trace acc)
  /\ match ret acc with
     | Ok d => NoDup (item_ids d)
     | Raise _ => True
     end.


(** The quantity a result dictionary holds for [item], 0 when the item is
    not a key. *)
Fixpoint quantity_for (d : list (Item * Z)) (item : Item) : Z :=
  match d with
  | [] => 0
  | (k, v) :: rest => if item_eqb k item then v else quantity_for rest item
  end.

(** The sum of the quantities that a list of pairs gives for [item]. *)
Definition total_for (item : Item) (l : list (Item * Z)) : Z :=
  fold_right
    (fun p acc => if item_eqb (fst p) item then (snd p + acc)%Z else acc)
    0%Z l.

(** What [Shelf.__init__] does to the slot at index [i]. *)
Definition with_initial_weight (initial_weights : list (option Q)) (i : nat)
    (slot : Slot) : Slot :=
  match initial_weights !! i with
  | Some (Some w) => set_previous_weight slot (Some w)
  | _ => slot
  end.

(** The manager of old_shelf_manager.py after a first message from the
    shelf "80:65:99:49:EF:8E" reporting 0 for every slot. *)
Definition registered_manager : ShelfManager :=
  post (old_shelf_manager.old_on_shelf_data_cb no_strings
          ManagerImpl.__init__ noon
          (message "80:65:99:49:EF:8E"
             [JNumber 0; JNumber 0; JNumber 0; JNumber 0])).

(** The managers that a stream of decoded messages makes of a new one. *)
Inductive served
    (route : ShelfManager -> datetime -> gmap string json
             -> outcome ShelfManager unit) : ShelfManager -> Prop :=
  | served_new : served route ManagerImpl.__init__
  | served_message (self : ShelfManager) (now : datetime)
      (json_data : gmap string json) :
      served route self -> served route (post (route self now json_data)).

(** No slot of any shelf of the manager has an item. *)
Definition unstocked (self : ShelfManager) : Prop :=
  forall (mac : string) (shelf : Shelf),
    _mac_to_shelf_map self !! mac = Some shelf ->
    Forall (fun s => items s = []) (slots shelf).

End Notions.
Import Notions.

(** * Properties *)

(** ** Calibration *)

Section Calibration.
Import SlotImpl.

Lemma calibrate_positive self op :
  (0 < _conversion_factor self)%Q -> positive_calibration op ->
  (0 < _conversion_factor (calibrate self op))%Q.
Proof.
  intros Hpos Hop. destruct op as [z l k | f]; cbn in *; [| exact Hop].
  unfold calc_conversion_factor.
  destruct (Qeq_bool l z) eqn:E; cbn; [exact Hpos |].
  destruct Hop as [Heq | Hq]; [| exact Hq].
  apply Qeq_bool_iff in Heq. congruence.
Qed.

(** C5. [calc_conversion_factor] sets and returns
    [known / (loaded - zero)] when the loaded and the zero weight differ
    (226 / (500 - 0) is 0.452).  When they are equal the slot is left
    exactly as it was, the retained factor is returned and the only signal
    of the failure is the printed line (so for zero = loaded = 100). *)
Theorem calc_conversion_factor_spec (self : Slot) (z l k : Q) :
  (~ (l == z)%Q ->
     post (calc_conversion_factor self z l k)
       = set_conversion_factor self (k / (l - z))%Q
     /\ ret (calc_conversion_factor self z l k) = Ok (k / (l - z))%Q
     /\ trace (calc_conversion_factor self z l k) = [])
  /\ ((l == z)%Q ->
     post (calc_conversion_factor self z l k) = self
     /\ ret (calc_conversion_factor self z l k) = Ok (_conversion_factor self)
     /\ trace (calc_conversion_factor self z l k) = [Print MsgSameWeights])
  /\ (_conversion_factor (post (calc_conversion_factor self 0 500 226))
        == 0.452)%Q
  /\ post (calc_conversion_factor self 100 100 226) = self.
Proof.
  unfold calc_conversion_factor.
  split; [| split; [| split; [reflexivity | reflexivity]]].
  - intros Hne. destruct (Qeq_bool l z) eqn:E.
    + apply Qeq_bool_iff in E. contradiction.
    + cbn. auto.
  - intros Heq. apply Qeq_bool_iff in Heq. rewrite Heq. cbn. auto.
Qed.

Lemma calc_conversion_factor_spec_witness :
  let self := SlotImpl.__init__ [] in
  ret (calc_conversion_factor self 0 500 226) = Ok (226 / (500 - 0))%Q
  /\ ret (calc_conversion_factor self 100 100 226) = Ok 0.44%Q.
Proof.
  intros self.
  destruct (calc_conversion_factor_spec self 0 500 226) as (Hne & _).
  destruct (calc_conversion_factor_spec self 100 100 226) as (_ & Heq & _).
  split.
  - apply Hne. intros H. vm_compute in H. discriminate H.
  - apply Heq. reflexivity.
Defined.

(** C9, as stated, fails: nothing in either operation looks at the sign.
    A tare whose loaded reading is below the zero reading leaves a negative
    factor, and [set_conversion_factor] stores what it is given. *)
Lemma conversion_factor_not_always_positive :
  ~ (forall (self : Slot) (ops : list calibration),
       (0 < _conversion_factor (fold_left calibrate ops self))%Q).
Proof.
  intros H.
  specialize (H (SlotImpl.__init__ []) [Calc 500 0 226]).
  vm_compute in H. discriminate H.
Qed.

(** C9, amended: from a positive factor (the constructor's 0.44 is one),
    the factor is positive after every operation of a sequence in which
    each [set_conversion_factor] is given a positive factor and each
    [calc_conversion_factor] whose two readings differ has
    [known / (loaded - zero)] positive. *)
Theorem conversion_factor_positive (self : Slot) (ops : list calibration) :
  (0 < _conversion_factor self)%Q ->
  Forall positive_calibration ops ->
  forall n : nat,
    (0 < _conversion_factor (fold_left calibrate (firstn n ops) self))%Q.
Proof.
  intros Hpos Hops. revert self Hpos.
  induction Hops as [| op ops Hop _ IH]; intros self Hpos n.
  - rewrite firstn_nil. exact Hpos.
  - destruct n as [| n]; [exact Hpos |].
    cbn [firstn fold_left]. apply IH. now apply calibrate_positive.
Qed.

Lemma conversion_factor_positive_witness :
  (0 < _conversion_factor
         (fold_left calibrate
            (firstn 2 [Calc 0 500 226; SetFactor 0.5; Calc 100 100 226])
            (SlotImpl.__init__ [])))%Q.
Proof.
  apply (conversion_factor_positive (SlotImpl.__init__ [])
           [Calc 0 500 226; SetFactor 0.5; Calc 100 100 226]).
  - reflexivity.
  - constructor; [right; reflexivity |].
    constructor; [reflexivity |].
    constructor; [left; reflexivity | constructor].
Defined.

End Calibration.

(** ** Slot.update: the item precondition and the latches *)

Section SlotUpdate.
Import SlotImpl.

Lemma classify_keeps_rest self item d r :
  let '(s, _, _) := classify self item d r in
  items s = items self
  /\ _previous_weight_g s = _previous_weight_g self
  /\ _conversion_factor s = _conversion_factor self
  /\ _weight_store s = _weight_store self
  /\ _previous_raw_weight s = _previous_raw_weight self.
Proof.
  unfold classify.
  repeat match goal with
         | |- context [if ?c then _ else _] => destruct c
         end; cbn; auto.
Qed.

Lemma classify_latches self item d r :
  ~ both_pending self ->
  ~ both_pending (fst (fst (classify self item d r))).
Proof.
  unfold classify, both_pending. intros Hinv.
  repeat match goal with
         | |- context [if ?c then _ else _] => destruct c
         end; cbn; try exact Hinv; intros [Hp Hn]; congruence.
Qed.

Lemma update_latches self w dbg :
  ~ both_pending self -> ~ both_pending (post (update self w dbg)).
Proof.
  intros Hinv. unfold update.
  destruct (items (set_previous_raw_weight self (Some w))) as [| item rest];
    [exact Hinv |].
  destruct (median _) as [m | e]; [| exact Hinv].
  cbn [_previous_weight_g with_weight_store set_previous_raw_weight].
  destruct (_previous_weight_g self) as [p |]; [| exact Hinv].
  destruct (float_mod _ _) as [r | e]; [| exact Hinv].
  destruct (Qltb _ _); [exact Hinv |].
  match goal with
  | |- context [classify ?s ?i ?d ?r'] =>
      pose proof (classify_latches s i d r' Hinv) as Hc;
      destruct (classify s i d r') as [[s' pr] qty]
  end.
  exact Hc.
Qed.

(** C8. In every reachable slot state, and so after every [update] of one,
    the positive latch is not set while the negative latch holds a nonzero
    count. *)
Theorem latches_never_both_pending (s : Slot) :
  reachable s ->
  ~ both_pending s
  /\ forall (new_weight : Q) (print_debug : bool),
       ~ both_pending (post (update s new_weight print_debug)).
Proof.
  intros Hr.
  assert (Hinv : ~ both_pending s).
  { induction Hr as [its | s w dbg _ IH | s w _ IH | s w _ IH | s f _ IH
                    | s z l k _ IH].
    - intros [Hp _]. discriminate Hp.
    - now apply update_latches.
    - exact IH.
    - exact IH.
    - exact IH.
    - unfold calc_conversion_factor. destruct (Qeq_bool l z); exact IH. }
  split; [exact Hinv |].
  intros w dbg. now apply update_latches.
Qed.

Lemma latches_never_both_pending_witness :
  let it := database.mock_item 1 "Little Bites Chocolate" "123456789012"
              2.10 100 47 10 "pouch" in
  let s := post (update (set_previous_weight (__init__ [it]) (Some 0%Q))
                   200 false) in
  _last_pos s = true /\ ~ both_pending s.
Proof.
  intros it s. split; [reflexivity |].
  apply (latches_never_both_pending s).
  apply reach_update, reach_set_previous_weight, reach_init.
Defined.

Lemma update_no_item self w dbg :
  items self = [] ->
  update self w dbg
  = {| post := set_previous_raw_weight self (Some w);
       trace := [];
       ret := Raise IndexError |}.
Proof. intros H. unfold update. cbn. now rewrite H. Qed.

Lemma update_index_error self w dbg :
  ret (update self w dbg) = Raise IndexError -> items self = [].
Proof.
  unfold update. cbn [items set_previous_raw_weight].
  destruct (items self) as [| item rest]; [reflexivity |].
  intros H. exfalso. revert H.
  cbn [_weight_store with_weight_store _previous_weight_g
       set_previous_raw_weight _conversion_factor].
  unfold median.
  destruct (Nat.eqb _ 0); [discriminate |].
  destruct (Nat.odd _).
  all: destruct (_previous_weight_g self); [| discriminate].
  all: unfold float_mod; destruct (Qeq_bool _ 0); [discriminate |].
  all: destruct (Qltb _ _); [discriminate |].
  all: destruct (classify _ _ _ _) as [[s' pr] qty]; discriminate.
Qed.

Lemma shelf_manager_table_slots mac table_slots :
  shelf_manager.SHELF_ITEM_MAP !! mac = Some table_slots ->
  table_slots = repeat (__init__ []) 4.
Proof.
  intros H. unfold shelf_manager.SHELF_ITEM_MAP in H.
  apply elem_of_list_to_map_2 in H.
  repeat match goal with
         | H : _ ∈ _ :: _ |- _ => apply elem_of_cons in H; destruct H as [H | H]
         | H : _ ∈ [] |- _ => apply elem_of_nil in H; contradiction
         | H : (_, _) = (_, _) |- _ => injection H as _ ->; reflexivity
         end.
Qed.

(** C6. [update] records the raw reading and then reads [items[0]]; on a
    slot without items the call ends there with [IndexError], nothing else
    of the slot touched.  An assigned item is the only thing that prevents
    this error, and no slot of [SHELF_ITEM_MAP] in shelf_manager.py has
    one. *)
Theorem update_requires_an_item :
  (forall (self : Slot) (new_weight : Q) (print_debug : bool),
     items self = [] ->
     update self new_weight print_debug
     = {| post := set_previous_raw_weight self (Some new_weight);
          trace := [];
          ret := Raise IndexError |})
  /\ (forall (self : Slot) (new_weight : Q) (print_debug : bool),
        ret (update self new_weight print_debug) = Raise IndexError ->
        items self = [])
  /\ (forall (mac : string) (table_slots : list Slot) (slot : Slot),
        shelf_manager.SHELF_ITEM_MAP !! mac = Some table_slots ->
        In slot table_slots ->
        items slot = []
        /\ forall (new_weight : Q) (print_debug : bool),
             ret (update slot new_weight print_debug) = Raise IndexError).
Proof.
  split; [exact update_no_item |].
  split; [exact update_index_error |].
  intros mac table_slots slot Hmac Hin.
  apply shelf_manager_table_slots in Hmac. subst table_slots.
  apply repeat_spec in Hin. subst slot.
  split; [reflexivity |].
  intros w dbg. now rewrite update_no_item.
Qed.

Lemma update_requires_an_item_witness :
  ret (update (__init__ []) 200 false) = Raise IndexError
  /\ items (__init__ []) = [].
Proof.
  destruct update_requires_an_item as (Hfail & Honly & Htable).
  split.
  - destruct (Htable "MAC_1" (repeat (__init__ []) 4) (__init__ []))
      as [_ Hraise].
    + reflexivity.
    + left. reflexivity.
    + apply Hraise.
  - apply (Honly (__init__ []) 200%Q false).
    rewrite Hfail; reflexivity.
Defined.

End SlotUpdate.

(** ** Slot.update: a reading beyond the extraneous limit *)

Section Glitch.
Import SlotImpl.

Lemma Qltb_lt x y : Qltb x y = true <-> (x < y)%Q.
Proof.
  unfold Qltb. rewrite negb_true_iff. split.
  - intros H. apply Qnot_le_lt. intros Hle.
    apply Qle_bool_iff in Hle. congruence.
  - intros H. destruct (Qle_bool y x) eqn:E; [| reflexivity].
    apply Qle_bool_iff in E. exfalso. exact (Qlt_not_le _ _ H E).
Qed.

Lemma float_mod_ok x y : ~ (y == 0)%Q ->
  float_mod x y = Ok (x - inject_Z (Qfloor (x / y)) * y)%Q.
Proof.
  intros Hy. unfold float_mod. destruct (Qeq_bool y 0) eqn:E; [| reflexivity].
  apply Qeq_bool_iff in E. contradiction.
Qed.

(** C2, as stated, fails.  A slot holding a 47 g item is fed 200, 200 and
    then 50000: the third reading puts the median 11044 g above the previous
    weight, the value evicted by that call is 88, and the previous weight
    is still 0 afterwards. *)
Lemma glitch_does_not_advance_previous_weight :
  ~ (forall (self : Slot) (item : Item) (rest : list Item) (w m p : Q),
       items self = item :: rest ->
       median (advanced_store self w) = Ok m ->
       _previous_weight_g self = Some p ->
       ~ (avg_weight item == 0)%Q ->
       (EXTRANEOUS_VALUE_LIMIT < Qabs (m - p))%Q ->
       _previous_weight_g (post (update self w false))
       = Some (evicted self w)).
Proof.
  intros H.
  pose (it := database.mock_item 1 "Little Bites Chocolate" "123456789012"
                2.10 100 47 10 "pouch").
  pose (s := fst (feed (set_previous_weight (__init__ [it]) (Some 0%Q))
                    [200; 200]%Q)).
  specialize (H s it [] 50000%Q
                ((88.00 + 22000.00) / 2)%Q 0%Q).
  assert (Hgoal : _previous_weight_g (post (update s 50000 false))
                  = Some (evicted s 50000)).
  { apply H.
    - reflexivity.
    - reflexivity.
    - reflexivity.
    - intros E. vm_compute in E. discriminate E.
    - reflexivity. }
  vm_compute in Hgoal. discriminate Hgoal.
Qed.

(** C2, amended.  When the median of the advanced buffer differs from the
    previous weight by more than the extraneous limit, [update] prints one
    line and returns the empty list: no (item, delta) pair at all.  The two
    latches, the no-update counter and the previous weight are as before
    the call; what has advanced is the buffer (the new normalized reading
    pushed, the oldest one evicted) and the recorded raw reading. *)
Theorem glitch_discards_reading (self : Slot) (item : Item)
    (rest : list Item) (w m p : Q) :
  items self = item :: rest ->
  median (advanced_store self w) = Ok m ->
  _previous_weight_g self = Some p ->
  ~ (avg_weight item == 0)%Q ->
  (EXTRANEOUS_VALUE_LIMIT < Qabs (m - p))%Q ->
  update self w false
  = {| post := with_weight_store (set_previous_raw_weight self (Some w))
                 (advanced_store self w);
       trace := [Print MsgExtraneous];
       ret := Ok [] |}
  /\ _last_pos (post (update self w false)) = _last_pos self
  /\ _last_neg (post (update self w false)) = _last_neg self
  /\ _iterations_no_update (post (update self w false))
     = _iterations_no_update self
  /\ _previous_weight_g (post (update self w false)) = Some p
  /\ _weight_store (post (update self w false)) = advanced_store self w.
Proof.
  intros Hitems Hmed Hprev Havg Hbig.
  assert (E : update self w false
              = {| post := with_weight_store
                             (set_previous_raw_weight self (Some w))
                             (advanced_store self w);
                   trace := [Print MsgExtraneous];
                   ret := Ok [] |}).
  { unfold update. cbn [items set_previous_raw_weight]. rewrite Hitems.
    cbn [_weight_store with_weight_store set_previous_raw_weight
         _conversion_factor _previous_weight_g].
    unfold advanced_store in Hmed. rewrite Hmed, Hprev.
    rewrite (float_mod_ok _ _ Havg).
    apply Qltb_lt in Hbig. rewrite Hbig. reflexivity. }
  rewrite E. cbn. rewrite Hprev. repeat (split; [reflexivity |]). reflexivity.
Qed.

Lemma glitch_discards_reading_witness :
  let it := database.mock_item 1 "Little Bites Chocolate" "123456789012"
              2.10 100 47 10 "pouch" in
  let s := fst (feed (set_previous_weight (__init__ [it]) (Some 0%Q))
                  [200; 200]%Q) in
  ret (update s 50000 false) = Ok []
  /\ _previous_weight_g (post (update s 50000 false)) = Some 0%Q.
Proof.
  intros it s.
  destruct (glitch_discards_reading s it [] 50000%Q
              ((88.00 + 22000.00) / 2)%Q 0%Q) as (E & _ & _ & _ & Hp & _).
  - reflexivity.
  - reflexivity.
  - reflexivity.
  - intros E. vm_compute in E. discriminate E.
  - reflexivity.
  - split; [now rewrite E | exact Hp].
Defined.

End Glitch.

(** ** Slot.update: a step change of one item *)

Section StepChange.
Import SlotImpl.

Lemma round_comp x y : (x == y)%Q -> round x = round y.
Proof.
  intros H. unfold round. rewrite (Qfloor_comp _ _ H).
  assert (E : (x - inject_Z (Qfloor y) ?= 1 # 2)%Q
              = (y - inject_Z (Qfloor y) ?= 1 # 2)%Q) by now rewrite H.
  now rewrite E.
Qed.

Lemma Qltb_comp x y y' : (y == y')%Q -> Qltb x y = Qltb x y'.
Proof. intros H. unfold Qltb. now rewrite H. Qed.

Lemma classify_comp self item d d' r r' :
  (d == d')%Q -> (r == r')%Q ->
  classify self item d r = classify self item d' r'.
Proof.
  intros Hd Hr. unfold classify.
  assert (E1 : Qle_bool (avg_weight item - std_weight item) r
               = Qle_bool (avg_weight item - std_weight item) r')
    by now rewrite Hr.
  assert (E2 : Qle_bool r (std_weight item) = Qle_bool r' (std_weight item))
    by now rewrite Hr.
  assert (E3 : round (d / avg_weight item) = round (d' / avg_weight item))
    by (apply round_comp; now rewrite Hd).
  now rewrite E1, E2, E3.
Qed.

Lemma median_two x y :
  exists m, median [x; y] = Ok m /\ (m == (x + y) / 2)%Q.
Proof.
  unfold median, sorted. cbn. destruct (Qle_bool x y); cbn.
  - eexists. split; [reflexivity |]. reflexivity.
  - eexists. split; [reflexivity |]. field.
Qed.

(** [update] on a two-element buffer, with the difference [D] given up to
    equality of rationals. *)
Lemma update_two self item rest b0 b1 p w D :
  items self = item :: rest ->
  _weight_store self = [b0; b1] ->
  _previous_weight_g self = Some p ->
  ~ (avg_weight item == 0)%Q ->
  (D == (w * _conversion_factor self + b0) / 2 - p)%Q ->
  update self w false
  = let s1 := with_weight_store (set_previous_raw_weight self (Some w))
                [(w * _conversion_factor self)%Q; b0] in
    if Qltb EXTRANEOUS_VALUE_LIMIT (Qabs D) then
      {| post := s1; trace := [Print MsgExtraneous]; ret := Ok [] |}
    else
      let '(s, printed, q) :=
        classify s1 item D
          (Qabs (D - inject_Z (Qfloor (D / avg_weight item))
                     * avg_weight item)) in
      {| post := set_previous_weight s (Some b1);
         trace := printed;
         ret := Ok [(item, q)] |}.
Proof.
  intros Hitems Hstore Hprev Havg HD.
  unfold update. cbn [items set_previous_raw_weight]. rewrite Hitems.
  cbn [_weight_store with_weight_store set_previous_raw_weight
       _conversion_factor _previous_weight_g].
  rewrite Hstore. cbn [List.removelast List.last].
  destruct (median_two (w * _conversion_factor self) b0) as (m & Hm & Hmv).
  rewrite Hm, Hprev, (float_mod_ok _ _ Havg).
  assert (Hd : (m - p == D)%Q) by (rewrite HD, Hmv; reflexivity).
  rewrite (Qltb_comp _ _ (Qabs D)) by now rewrite Hd.
  destruct (Qltb EXTRANEOUS_VALUE_LIMIT (Qabs D)); [reflexivity |].
  cbn zeta.
  assert (Hr : (Qabs (m - p - inject_Z (Qfloor ((m - p) / avg_weight item))
                               * avg_weight item)
                == Qabs (D - inject_Z (Qfloor (D / avg_weight item))
                             * avg_weight item))%Q).
  { apply Qabs_wd.
    assert (Hf : Qfloor ((m - p) / avg_weight item)
                 = Qfloor (D / avg_weight item))
      by (apply Qfloor_comp; now rewrite Hd).
    rewrite Hf, Hd. reflexivity. }
  rewrite (classify_comp _ item _ _ _ _ Hd Hr). reflexivity.
Qed.

(** The three ways the hysteresis step is taken below. *)
Lemma classify_no_quantity self item d r :
  round (d / avg_weight item) = 0%Z ->
  snd (classify self item d r) = 0%Z
  /\ (_last_neg self = 0%Z ->
      _last_neg (fst (fst (classify self item d r))) = 0%Z).
Proof.
  intros Hq. unfold classify. rewrite Hq. cbn [Z.ltb Z.compare].
  repeat match goal with
         | |- context [if ?c then _ else _] => destruct c
         end; cbn; auto.
Qed.





Lemma round_zero a : round (0 / a) = 0%Z.
Proof.
  rewrite (round_comp _ 0%Q); [reflexivity |]. unfold Qdiv. ring.
Qed.


Lemma not_extraneous D :
  (Qabs D <= EXTRANEOUS_VALUE_LIMIT)%Q ->
  Qltb EXTRANEOUS_VALUE_LIMIT (Qabs D) = false.
Proof.
  intros H. unfold Qltb. apply Qle_bool_iff in H. now rewrite H.
Qed.

(** A reading that is not extraneous: what [update] returns and leaves, in
    terms of the hysteresis step. *)
Lemma update_normal self item rest b0 b1 p w D :
  items self = item :: rest ->
  _weight_store self = [b0; b1] ->
  _previous_weight_g self = Some p ->
  ~ (avg_weight item == 0)%Q ->
  (D == (w * _conversion_factor self + b0) / 2 - p)%Q ->
  (Qabs D <= EXTRANEOUS_VALUE_LIMIT)%Q ->
  let c :=
    classify (with_weight_store (set_previous_raw_weight self (Some w))
                [(w * _conversion_factor self)%Q; b0])
      item D
      (Qabs (D - inject_Z (Qfloor (D / avg_weight item)) * avg_weight item)) in
  ret (update self w false) = Ok [(item, snd c)]
  /\ items (post (update self w false)) = item :: rest
  /\ _conversion_factor (post (update self w false)) = _conversion_factor self
  /\ _weight_store (post (update self w false))
     = [(w * _conversion_factor self)%Q; b0]
  /\ _previous_weight_g (post (update self w false)) = Some b1
  /\ _last_neg (post (update self w false)) = _last_neg (fst (fst c)).
Proof.
  intros Hitems Hstore Hprev Havg HD Hsmall c.
  rewrite (update_two self item rest b0 b1 p w D Hitems Hstore Hprev Havg HD).
  cbn zeta. rewrite (not_extraneous D Hsmall).
  pose proof (classify_keeps_rest
                (with_weight_store (set_previous_raw_weight self (Some w))
                   [(w * _conversion_factor self)%Q; b0])
                item D
                (Qabs (D - inject_Z (Qfloor (D / avg_weight item))
                           * avg_weight item))) as Hk.
  subst c.
  destruct (classify _ item D _) as [[s' pr] qty].
  destruct Hk as (Hi & _ & Hc & Hs & _).
  cbn. cbn in Hi, Hc, Hs. rewrite Hi, Hc, Hs, Hitems.
  repeat (split; [reflexivity |]). reflexivity.
Qed.


Lemma feed_cons self w rest :
  snd (feed self (w :: rest))
  = ret (update self w false) :: snd (feed (post (update self w false)) rest).
Proof. cbn [feed]. destruct (feed _ rest). reflexivity. Qed.

Section OneItem.

Variable item : Item.
Hypothesis Hpos : (0 < avg_weight item)%Q.
Hypothesis Hlimit : (avg_weight item <= EXTRANEOUS_VALUE_LIMIT)%Q.
Hypothesis Hstd : (0 <= std_weight item)%Q.

Lemma avg_nonzero : ~ (avg_weight item == 0)%Q.
Proof. intros E. rewrite E in Hpos. discriminate Hpos. Qed.




(** Every later reading: no difference, nothing emitted. *)
Lemma steady_cycle (s : Slot) (r : Q) :
  items s = [item] ->
  _weight_store s
  = [(r * _conversion_factor s)%Q; (r * _conversion_factor s)%Q] ->
  _previous_weight_g s = Some (r * _conversion_factor s)%Q ->
  ret (update s r false) = Ok [(item, 0%Z)]
  /\ items (post (update s r false)) = [item]
  /\ _conversion_factor (post (update s r false)) = _conversion_factor s
  /\ _weight_store (post (update s r false))
     = [(r * _conversion_factor s)%Q; (r * _conversion_factor s)%Q]
  /\ _previous_weight_g (post (update s r false))
     = Some (r * _conversion_factor s)%Q.
Proof.
  intros Hi Hs Hp.
  pose proof avg_nonzero as Ha.
  destruct (update_normal s item [] (r * _conversion_factor s)%Q
              (r * _conversion_factor s)%Q (r * _conversion_factor s)%Q r
              0%Q Hi Hs Hp Ha)
    as (Hret & Hi' & Hc' & Hs' & Hp' & _).
  - field.
  - discriminate.
  - destruct (classify_no_quantity
                (with_weight_store (set_previous_raw_weight s (Some r))
                   [(r * _conversion_factor s)%Q; (r * _conversion_factor s)%Q])
                item 0%Q
                (Qabs (0 - inject_Z (Qfloor (0 / avg_weight item))
                           * avg_weight item))
                (round_zero _)) as (Hq & _).
    rewrite Hret, Hq. repeat (split; [assumption || reflexivity |]).
    assumption.
Qed.

Lemma steady_feed (n : nat) : forall (s : Slot) (r : Q),
  items s = [item] ->
  _weight_store s
  = [(r * _conversion_factor s)%Q; (r * _conversion_factor s)%Q] ->
  _previous_weight_g s = Some (r * _conversion_factor s)%Q ->
  snd (feed s (repeat r n)) = repeat (Ok [(item, 0%Z)]) n.
Proof.
  induction n as [| n IH]; intros s r Hi Hs Hp; [reflexivity |].
  cbn [repeat]. rewrite feed_cons.
  destruct (steady_cycle s r Hi Hs Hp) as (Hret & Hi' & Hc' & Hs' & Hp').
  rewrite Hret. f_equal. apply IH.
  - exact Hi'.
  - now rewrite Hc'.
  - now rewrite Hc'.
Qed.


End OneItem.

End StepChange.

Section StepChangeClaim.
Import SlotImpl.






End StepChangeClaim.

(** ** Routing: coercion of the data points and unknown identifiers *)

Section RoutingProperties.
Import ManagerImpl.

Variable parse_float : string -> option Q.
Variable table : gmap string (list Slot).
Variable cb_positive cb_negative : Item -> event.

#[local] Abbreviation float := (ManagerImpl.float parse_float).
#[local] Abbreviation cast_datapoints := (ManagerImpl.cast_datapoints parse_float).
#[local] Abbreviation route :=
  (ManagerImpl.route parse_float table cb_positive cb_negative).

(** The handler [except TypeError | ValueError] catches nothing. *)
Lemma union_handler_raises (e : exc) :
  except_matches (ExceptUnion TypeError ValueError) e = Raise TypeError.
Proof. reflexivity. Qed.

(** When every data point is a number the loop returns them all. *)
Lemma cast_datapoints_numbers (raw_data : list json) :
  forall (data : list (option Q)) (xs : list Q),
    Forall2 (fun p x => float p = Ok x) raw_data xs ->
    cast_datapoints raw_data data = ([], Ok (data ++ map Some xs)).
Proof.
  induction raw_data as [| p rest IH]; intros data xs H.
  - inversion H; subst. cbn. now rewrite app_nil_r.
  - inversion H as [| p' x rest' xs' Hp Hrest]; subst.
    cbn [ManagerImpl.cast_datapoints]. rewrite Hp. rewrite (IH _ _ Hrest).
    cbn [map]. now rewrite <- app_assoc.
Qed.

(** When some data point is not, the loop ends in [TypeError]; [None] is
    never appended. *)
Lemma cast_datapoints_failure (raw_data : list json) :
  forall data : list (option Q),
    Exists (fun p => exists e, float p = Raise e) raw_data ->
    cast_datapoints raw_data data = ([], Raise TypeError).
Proof.
  induction raw_data as [| p rest IH]; intros data H.
  - inversion H.
  - cbn [ManagerImpl.cast_datapoints].
    destruct (float p) as [x | e] eqn:Hp.
    + apply IH. inversion H as [? ? (e & He) | ? ? Hrest]; subst.
      * congruence.
      * exact Hrest.
    + reflexivity.
Qed.

Lemma cast_datapoints_cases (raw_data : list json) :
  (exists xs, Forall2 (fun p x => float p = Ok x) raw_data xs)
  \/ Exists (fun p => exists e, float p = Raise e) raw_data.
Proof.
  induction raw_data as [| p rest IH].
  - left. exists []. constructor.
  - destruct (float p) as [x | e] eqn:Hp.
    + destruct IH as [(xs & Hxs) | Hex].
      * left. exists (x :: xs). now constructor.
      * right. now apply Exists_cons_tl.
    + right. apply Exists_cons_hd. now exists e.
Qed.

Lemma route_cast_failure (self : ShelfManager) (now : datetime)
    (json_data : gmap string json) (mac : json) (raw_data : list json) :
  json_data !! "id" = Some mac ->
  json_data !! "data" = Some (JArray raw_data) ->
  length raw_data = NUM_SLOTS_PER_SHELF ->
  Exists (fun p => exists e, float p = Raise e) raw_data ->
  route self now json_data
  = {| post := self; trace := []; ret := Raise TypeError |}.
Proof.
  intros Hid Hdata Hlen Hex. unfold ManagerImpl.route.
  rewrite Hid, Hdata, Hlen. cbn [Nat.eqb NUM_SLOTS_PER_SHELF negb].
  now rewrite (cast_datapoints_failure _ _ Hex).
Qed.

(** A message for an identifier that neither the manager nor the table
    knows. *)
Lemma route_unknown (self : ShelfManager) (now : datetime)
    (json_data : gmap string json) (mac : string) (raw_data : json) :
  json_data !! "id" = Some (JString mac) ->
  json_data !! "data" = Some raw_data ->
  table !! mac = None ->
  _mac_to_shelf_map self !! mac = None ->
  post (route self now json_data) = self
  /\ Forall (fun e => is_cart_call e = false) (trace (route self now json_data))
  /\ (ret (route self now json_data) = Ok tt
      \/ ret (route self now json_data) = Raise TypeError).
Proof.
  intros Hid Hdata Htable Hmap. unfold ManagerImpl.route.
  rewrite Hid, Hdata.
  destruct raw_data as [| b | x | s | raw_data | members];
    try (cbn; repeat split; auto; fail).
  destruct (negb _); [cbn; repeat split; auto |].
  destruct (cast_datapoints_cases raw_data) as [(xs & Hxs) | Hex].
  - rewrite (cast_datapoints_numbers _ _ _ Hxs).
    unfold dict_contains. cbn [hashable]. rewrite Hmap, Htable.
    rewrite !bool_decide_eq_false_2 by (intros [? ?]; discriminate).
    cbn. repeat split; auto.
  - rewrite (cast_datapoints_failure _ _ Hex). cbn. repeat split; auto.
Qed.

Lemma message_id (mac : string) (data : list json) :
  message mac data !! "id" = Some (JString mac).
Proof. unfold message. apply lookup_insert_eq. Qed.

Lemma message_data (mac : string) (data : list json) :
  message mac data !! "data" = Some (JArray data).
Proof.
  unfold message. rewrite lookup_insert_ne by discriminate.
  apply lookup_insert_eq.
Qed.

Lemma route_unknown_numbers (self : ShelfManager) (now : datetime)
    (mac : string) (raw_data : list json) (xs : list Q) :
  table !! mac = None ->
  _mac_to_shelf_map self !! mac = None ->
  length raw_data = NUM_SLOTS_PER_SHELF ->
  Forall2 (fun p x => float p = Ok x) raw_data xs ->
  route self now (message mac raw_data)
  = {| post := self;
       trace := [Print MsgNewShelf; Print MsgNotInItemMap];
       ret := Ok tt |}.
Proof.
  intros Htable Hmap Hlen Hxs. unfold ManagerImpl.route.
  rewrite message_id, message_data, Hlen.
  cbn [Nat.eqb NUM_SLOTS_PER_SHELF negb].
  rewrite (cast_datapoints_numbers _ _ _ Hxs).
  unfold dict_contains. cbn [hashable]. rewrite Hmap, Htable.
  rewrite !bool_decide_eq_false_2 by (intros [? ?]; discriminate).
  reflexivity.
Qed.

End RoutingProperties.

Lemma registered_only_absent table self mac :
  registered_only table self -> table !! mac = None ->
  _mac_to_shelf_map self !! mac = None.
Proof.
  intros Hreg Htable.
  destruct (_mac_to_shelf_map self !! mac) as [shelf |] eqn:E; [| reflexivity].
  destruct (Hreg mac) as [slots Hslots]; [now exists shelf | congruence].
Qed.

(** C4.  The code does not do what the claim says: a data point that
    [float] rejects is not replaced by [None].  The handler
    [except TypeError | ValueError] cannot match, so the call ends in
    [TypeError] before any slot is looked at, in both managers and whatever
    the identifier; nothing is printed and the manager is unchanged. *)
Theorem failed_coercion_propagates (parse_float : string -> option Q)
    (self : ShelfManager) (now : datetime) (mac : string)
    (raw_data : list json) :
  length raw_data = NUM_SLOTS_PER_SHELF ->
  Exists (fun p => exists e, ManagerImpl.float parse_float p = Raise e)
    raw_data ->
  shelf_manager.on_shelf_data_cb parse_float self now (message mac raw_data)
  = {| post := self; trace := []; ret := Raise TypeError |}
  /\ old_shelf_manager.old_on_shelf_data_cb parse_float self now
       (message mac raw_data)
     = {| post := self; trace := []; ret := Raise TypeError |}.
Proof.
  intros Hlen Hex. split.
  - apply (route_cast_failure parse_float _ _ _ self now _
             (JString mac) raw_data);
      auto using message_id, message_data.
  - apply (route_cast_failure parse_float _ _ _ self now _
             (JString mac) raw_data);
      auto using message_id, message_data.
Qed.

Lemma failed_coercion_propagates_witness :
  let registered :=
    post (old_shelf_manager.old_on_shelf_data_cb no_strings
            ManagerImpl.__init__ noon
            (message "80:65:99:49:EF:8E"
               [JNumber 0; JNumber 0; JNumber 0; JNumber 0])) in
  ret (old_shelf_manager.old_on_shelf_data_cb no_strings registered noon
         (message "80:65:99:49:EF:8E"
            [JNull; JNumber 200; JNumber 0; JNumber 0]))
  = Raise TypeError.
Proof.
  intros registered.
  destruct (failed_coercion_propagates no_strings registered noon
              "80:65:99:49:EF:8E"
              [JNull; JNumber 200; JNumber 0; JNumber 0]) as [_ H].
  - reflexivity.
  - apply Exists_cons_hd. exists TypeError. reflexivity.
  - now rewrite H.
Defined.

(** C7.  A message for an identifier that is not in the table never
    creates a shelf and never reaches a cart callback, and when its four
    data points are numbers it is dropped with the two printed lines and
    no error.  The claim that no error propagates does not hold for every
    such message: one data point that [float] rejects ends the call in
    [TypeError] (the defect of C4). *)
Theorem unknown_identifier_routing (parse_float : string -> option Q)
    (self : ShelfManager) (now : datetime) (mac : string)
    (raw_data : list json) :
  shelf_manager.SHELF_ITEM_MAP !! mac = None ->
  registered_only shelf_manager.SHELF_ITEM_MAP self ->
  length raw_data = NUM_SLOTS_PER_SHELF ->
  post (shelf_manager.on_shelf_data_cb parse_float self now
          (message mac raw_data)) = self
  /\ Forall (fun e => is_cart_call e = false)
       (trace (shelf_manager.on_shelf_data_cb parse_float self now
                 (message mac raw_data)))
  /\ ((exists xs,
         Forall2 (fun p x => ManagerImpl.float parse_float p = Ok x)
           raw_data xs) ->
      ret (shelf_manager.on_shelf_data_cb parse_float self now
             (message mac raw_data)) = Ok tt)
  /\ (Exists (fun p => exists e, ManagerImpl.float parse_float p = Raise e)
        raw_data ->
      ret (shelf_manager.on_shelf_data_cb parse_float self now
             (message mac raw_data)) = Raise TypeError).
Proof.
  intros Htable Hreg Hlen.
  pose proof (registered_only_absent _ _ _ Hreg Htable) as Hmap.
  destruct (route_unknown parse_float shelf_manager.SHELF_ITEM_MAP
              AddToCart RemoveFromCart self now (message mac raw_data)
              mac (JArray raw_data) (message_id _ _) (message_data _ _)
              Htable Hmap) as (Hpost & Htrace & _).
  split; [exact Hpost |]. split; [exact Htrace |]. split.
  - intros (xs & Hxs). unfold shelf_manager.on_shelf_data_cb.
    now rewrite (route_unknown_numbers parse_float _ _ _ self now mac
                   raw_data xs Htable Hmap Hlen Hxs).
  - intros Hex. unfold shelf_manager.on_shelf_data_cb.
    now rewrite (route_cast_failure parse_float _ _ _ self now _
                   (JString mac) raw_data (message_id _ _)
                   (message_data _ _) Hlen Hex).
Qed.

Lemma unknown_identifier_routing_witness :
  ret (shelf_manager.on_shelf_data_cb no_strings ManagerImpl.__init__ noon
         (message "MAC_9" [JNull; JNumber 1; JNumber 2; JNumber 3]))
  = Raise TypeError
  /\ ret (shelf_manager.on_shelf_data_cb no_strings ManagerImpl.__init__ noon
            (message "MAC_9" [JNumber 0; JNumber 1; JNumber 2; JNumber 3]))
     = Ok tt.
Proof.
  split.
  - destruct (unknown_identifier_routing no_strings ManagerImpl.__init__ noon
                "MAC_9" [JNull; JNumber 1; JNumber 2; JNumber 3])
      as (_ & _ & _ & H).
    + reflexivity.
    + intros mac [shelf Hshelf]. cbn in Hshelf.
      rewrite lookup_empty in Hshelf. discriminate.
    + reflexivity.
    + apply H. apply Exists_cons_hd. exists TypeError. reflexivity.
  - destruct (unknown_identifier_routing no_strings ManagerImpl.__init__ noon
                "MAC_9" [JNumber 0; JNumber 1; JNumber 2; JNumber 3])
      as (_ & _ & H & _).
    + reflexivity.
    + intros mac [shelf Hshelf]. cbn in Hshelf.
      rewrite lookup_empty in Hshelf. discriminate.
    + reflexivity.
    + apply H. exists [0; 1; 2; 3]%Q. repeat constructor.
Defined.

(** ** main_loop *)

Section WatchdogProperties.
Import Watchdog.

(** A wait whose deadline has passed ends on its first read. *)
Lemma busy_wait_elapsed (fuel : nat) (e : env) (l : Q) (k : nat) :
  Qltb (clock e k) ((l + LOOP_DELAY_MS) / 1000) = false ->
  busy_wait (S fuel) e l k = Some k.
Proof. intros H. cbn [busy_wait]. now rewrite H. Qed.

(** The loop leaves at the top of the iteration that finds the flag set. *)
Lemma loop_stop_observed (fuel wait_fuel : nat) (e : env) (l : Q)
    (local : option Q) (k i : nat) :
  signal_end_at e i = true ->
  loop (S fuel) wait_fuel e l local k i
  = {| released_at := []; exited := true |}.
Proof. intros H. cbn [loop]. now rewrite H. Qed.

(** While the flag stays unset the loop does not leave. *)
Lemma loop_runs_while_unset (fuel wait_fuel : nat) (e : env) :
  (forall i, signal_end_at e i = false) ->
  forall (l : Q) (local : option Q) (k i : nat),
    exited (loop fuel wait_fuel e l local k i) = false.
Proof.
  intros Hflag. induction fuel as [| fuel IH]; intros l local k i;
    [reflexivity |].
  cbn [loop]. rewrite Hflag.
  destruct (busy_wait wait_fuel e l k) as [k' |]; [| reflexivity].
  cbn [exited]. apply IH.
Qed.

(** Once the deadline computed from [self._last_loop_ms] has passed, every
    iteration is released by its first clock read: one read for the wait,
    one for the assignment of the local [last_loop_ms]. *)
Lemma loop_after_deadline (fuel wait_fuel : nat) (e : env) (l : Q) :
  (forall i, signal_end_at e i = false) ->
  (0 < wait_fuel)%nat ->
  forall (local : option Q) (k i : nat),
    (forall j, (k <= j)%nat ->
               Qltb (clock e j) ((l + LOOP_DELAY_MS) / 1000) = false) ->
    released_at (loop fuel wait_fuel e l local k i)
    = map (fun n => clock e (k + 2 * n)) (seq 0 fuel).
Proof.
  intros Hflag Hwf. destruct wait_fuel as [| wf]; [lia |].
  induction fuel as [| fuel IH]; intros local k i Hpast; [reflexivity |].
  cbn [loop]. rewrite Hflag.
  rewrite busy_wait_elapsed by (apply Hpast; lia).
  cbn [released_at seq map]. f_equal.
  - f_equal. lia.
  - rewrite IH by (intros j Hj; apply Hpast; lia).
    rewrite <- seq_shift, map_map. apply map_ext. intros n. f_equal. lia.
Qed.

(** C10.  The flag is read at the top of every iteration and is the only
    way out, but the 200 ms cadence is kept once only.  The wait compares
    the clock with [self._last_loop_ms + 200], and the last line of the body
    assigns a local [last_loop_ms], never the attribute: from the moment
    the clock has passed that one deadline, each iteration is released by
    the very next clock read. *)
Theorem watchdog_cadence_kept_once (fuel wait_fuel : nat) (e : env)
    (k0 : nat) :
  (forall i, signal_end_at e i = false) ->
  (0 < wait_fuel)%nat ->
  (forall j, (k0 <= j)%nat ->
             Qltb (clock e j) ((clock e 0 * 1000 + LOOP_DELAY_MS) / 1000)
             = false) ->
  busy_wait wait_fuel e (clock e 0 * 1000)%Q 1 = Some k0 ->
  released_at (main_loop (S fuel) wait_fuel e)
  = clock e k0 :: map (fun n => clock e (k0 + 2 + 2 * n)) (seq 0 fuel)
  /\ exited (main_loop (S fuel) wait_fuel e) = false.
Proof.
  intros Hflag Hwf Hpast Hfirst. split.
  - unfold main_loop. cbn [loop]. rewrite Hflag, Hfirst.
    cbn [released_at]. f_equal.
    rewrite (loop_after_deadline fuel wait_fuel e _ Hflag Hwf).
    + apply map_ext. intros n. f_equal. lia.
    + intros j Hj. apply Hpast. lia.
  - apply loop_runs_while_unset, Hflag.
Qed.

Lemma watchdog_cadence_kept_once_witness :
  released_at (main_loop 4 100 stop_never)
  = [ten_ms_clock 20; ten_ms_clock 22; ten_ms_clock 24; ten_ms_clock 26]
  /\ exited (main_loop 4 100 stop_never) = false.
Proof.
  apply (watchdog_cadence_kept_once 3 100 stop_never 20).
  - reflexivity.
  - lia.
  - intros j Hj. cbn [clock stop_never]. unfold Qltb.
    apply negb_false_iff, Qle_bool_iff.
    unfold ten_ms_clock, LOOP_DELAY_MS, Qle. cbn. lia.
  - reflexivity.
Defined.

End WatchdogProperties.

(** ** Shelf.update and the cart callbacks *)

Section ShelfUpdate.

Lemma slot_update_prints self w dbg :
  Forall (fun e => is_cart_call e = false) (trace (SlotImpl.update self w dbg)).
Proof.
  unfold SlotImpl.update.
  destruct (items _) as [| item rest]; [constructor |].
  destruct (median _); [| constructor].
  destruct (_previous_weight_g _); [| constructor].
  destruct (float_mod _ _); [| constructor].
  destruct (Qltb _ _).
  - cbn [trace]. apply Forall_app. split; [| repeat constructor].
    destruct dbg; repeat constructor.
  - unfold SlotImpl.classify.
    repeat match goal with
           | |- context [if ?c then _ else _] => destruct c
           end; cbn [trace]; apply Forall_app; split; repeat constructor.
Qed.

Lemma dict_add_ids (d : list (Item * Z)) (k : Item) (v : Z) :
  item_ids (ShelfImpl.dict_add d k v)
  = if existsb (fun p => item_eqb (fst p) k) d then item_ids d
    else item_ids d ++ [item_id k].
Proof.
  induction d as [| [k' v'] d IH]; [reflexivity |].
  cbn [ShelfImpl.dict_add existsb fst].
  destruct (item_eqb k' k); [reflexivity |].
  cbn [orb item_ids map fst]. fold (item_ids (ShelfImpl.dict_add d k v)).
  rewrite IH. fold (item_ids d). now destruct (existsb _ d).
Qed.

Lemma dict_add_NoDup (d : list (Item * Z)) (k : Item) (v : Z) :
  NoDup (item_ids d) -> NoDup (item_ids (ShelfImpl.dict_add d k v)).
Proof.
  intros Hd. rewrite dict_add_ids.
  destruct (existsb _ d) eqn:E; [exact Hd |].
  apply (proj2 (NoDup_app _ _)). split; [exact Hd |].
  split; [| apply NoDup_singleton].
  intros x Hx Hk. apply list_elem_of_In in Hx, Hk.
  destruct Hk as [<- | []].
  unfold item_ids in Hx. apply in_map_iff in Hx. destruct Hx as (p & Hp & Hin).
  assert (Hex : existsb (fun p => item_eqb (fst p) k) d = true).
  { apply existsb_exists. exists p. split; [exact Hin |].
    unfold item_eqb. now apply Z.eqb_eq. }
  congruence.
Qed.

Lemma dict_add_all_NoDup (l d : list (Item * Z)) :
  NoDup (item_ids d) -> NoDup (item_ids (ShelfImpl.dict_add_all d l)).
Proof.
  unfold ShelfImpl.dict_add_all. revert d.
  induction l as [| p l IH]; intros d Hd; [exact Hd |].
  cbn [fold_left]. apply IH. now apply dict_add_NoDup.
Qed.

Lemma update_iteration_invariant (n : nat) (raw_weights : list (option Q))
    (acc : outcome (list Slot) (list (Item * Z))) (i : nat) :
  loop_invariant n acc ->
  loop_invariant n (ShelfImpl.update_iteration raw_weights acc i).
Proof.
  intros Hacc. pose proof Hacc as (Hlen & Htr & Hret).
  unfold ShelfImpl.update_iteration.
  destruct (ret acc) as [d | e] eqn:Hr; [| exact Hacc].
  destruct (post acc !! i) as [slot |]; [| exact Hacc].
  destruct (raw_weights !! i) as [[w |] |].
  - split; [| split]; cbn [post trace ret].
    + now rewrite length_insert.
    + apply Forall_app. split; [exact Htr | apply slot_update_prints].
    + destruct (ret (SlotImpl.update slot w false)); [| exact I].
      now apply dict_add_all_NoDup.
  - exact Hacc.
  - split; [exact Hlen |]. split; [exact Htr | exact I].
Qed.

Lemma update_loop_invariant (raw_weights : list (option Q)) (l : list nat) :
  forall (n : nat) (acc : outcome (list Slot) (list (Item * Z))),
    loop_invariant n acc ->
    loop_invariant n (fold_left (ShelfImpl.update_iteration raw_weights) l acc).
Proof.
  induction l as [| i l IH]; intros n acc H; [exact H |].
  cbn [fold_left]. apply IH. now apply update_iteration_invariant.
Qed.

Lemma shelf_update_invariant (self : Shelf) (raw_weights : list (option Q))
    (now : datetime) :
  length (slots (post (ShelfImpl.update self raw_weights now)))
  = length (slots self)
  /\ Forall (fun e => is_cart_call e = false)
       (trace (ShelfImpl.update self raw_weights now))
  /\ forall d, ret (ShelfImpl.update self raw_weights now) = Ok d ->
               NoDup (item_ids d).
Proof.
  unfold ShelfImpl.update. cbn [post trace ret slots].
  destruct (update_loop_invariant raw_weights (seq 0 4) (length (slots self))
              {| post := slots self; trace := []; ret := Ok [] |})
    as (Hlen & Htr & Hret).
  - split; [reflexivity |]. split; [constructor |]. cbn. constructor.
  - split; [exact Hlen |]. split; [exact Htr |].
    intros d Hd. now rewrite Hd in Hret.
Qed.

(** *** Counting callback invocations *)

Lemma add_calls_app item tr1 tr2 :
  add_calls item (tr1 ++ tr2) = (add_calls item tr1 + add_calls item tr2)%nat.
Proof. unfold add_calls. now rewrite List.filter_app, length_app. Qed.

Lemma remove_calls_app item tr1 tr2 :
  remove_calls item (tr1 ++ tr2)
  = (remove_calls item tr1 + remove_calls item tr2)%nat.
Proof. unfold remove_calls. now rewrite List.filter_app, length_app. Qed.

Lemma calls_of_prints item tr :
  Forall (fun e => is_cart_call e = false) tr ->
  add_calls item tr = 0%nat /\ remove_calls item tr = 0%nat.
Proof.
  unfold add_calls, remove_calls.
  induction 1 as [| e tr He _ [IHa IHr]]; [split; reflexivity |].
  destruct e; try discriminate He. cbn. auto.
Qed.

Lemma calls_of_repeat_add item k n :
  add_calls item (repeat (AddToCart k) n)
  = (if item_eqb k item then n else 0%nat)
  /\ remove_calls item (repeat (AddToCart k) n) = 0%nat.
Proof.
  unfold add_calls, remove_calls. induction n as [| n [IHa IHr]].
  - split; [now destruct (item_eqb k item) | reflexivity].
  - cbn [repeat List.filter is_add_of is_remove_of]. split; [| exact IHr].
    destruct (item_eqb k item); cbn [length]; [now rewrite IHa | exact IHa].
Qed.

Lemma calls_of_repeat_remove item k n :
  add_calls item (repeat (RemoveFromCart k) n) = 0%nat
  /\ remove_calls item (repeat (RemoveFromCart k) n)
     = (if item_eqb k item then n else 0%nat).
Proof.
  unfold add_calls, remove_calls. induction n as [| n [IHa IHr]].
  - split; [reflexivity | now destruct (item_eqb k item)].
  - cbn [repeat List.filter is_add_of is_remove_of]. split; [exact IHa |].
    destruct (item_eqb k item); cbn [length]; [now rewrite IHr | exact IHr].
Qed.

(** The events of one entry of [item_quantity_changes], in the order of
    shelf_manager.py: [add_to_cart_cb] for a positive change. *)
Lemma calls_of_entry item k v :
  let events :=
    if (0 <? v)%Z then repeat (AddToCart k) (Z.to_nat v)
    else if (v <? 0)%Z then repeat (RemoveFromCart k) (Z.to_nat (Z.abs v))
    else [] in
  add_calls item events = (if item_eqb k item then Z.to_nat v else 0%nat)
  /\ remove_calls item events
     = (if item_eqb k item then Z.to_nat (- v) else 0%nat).
Proof.
  cbn zeta. destruct (Z.ltb_spec 0 v) as [Hp | Hp].
  - destruct (calls_of_repeat_add item k (Z.to_nat v)) as [-> ->].
    split; [reflexivity |]. destruct (item_eqb k item); lia.
  - destruct (Z.ltb_spec v 0) as [Hn | Hn].
    + destruct (calls_of_repeat_remove item k (Z.to_nat (Z.abs v)))
        as [-> ->].
      split; destruct (item_eqb k item); lia.
    + split; destruct (item_eqb k item); cbn; lia.
Qed.

Lemma invoke_callbacks_cons k v changes :
  ManagerImpl.invoke_callbacks AddToCart RemoveFromCart ((k, v) :: changes)
  = (if (0 <? v)%Z then repeat (AddToCart k) (Z.to_nat v)
     else if (v <? 0)%Z then repeat (RemoveFromCart k) (Z.to_nat (Z.abs v))
     else [])
    ++ ManagerImpl.invoke_callbacks AddToCart RemoveFromCart changes.
Proof. reflexivity. Qed.

Lemma invoke_callbacks_absent item changes :
  item_id item ∉ item_ids changes ->
  add_calls item
    (ManagerImpl.invoke_callbacks AddToCart RemoveFromCart changes) = 0%nat
  /\ remove_calls item
       (ManagerImpl.invoke_callbacks AddToCart RemoveFromCart changes) = 0%nat.
Proof.
  induction changes as [| [k v] changes IH]; intros Hnot;
    [split; reflexivity |].
  cbn [item_ids map fst] in Hnot. fold (item_ids changes) in Hnot.
  apply not_elem_of_cons in Hnot. destruct Hnot as [Hne Hnot].
  destruct (IH Hnot) as [IHa IHr].
  rewrite invoke_callbacks_cons, add_calls_app, remove_calls_app, IHa, IHr.
  destruct (calls_of_entry item k v) as [-> ->].
  assert (E : item_eqb k item = false).
  { unfold item_eqb. apply Z.eqb_neq. congruence. }
  rewrite E. split; reflexivity.
Qed.

Lemma invoke_callbacks_counts item delta changes :
  NoDup (item_ids changes) ->
  In (item, delta) changes ->
  add_calls item
    (ManagerImpl.invoke_callbacks AddToCart RemoveFromCart changes)
  = Z.to_nat delta
  /\ remove_calls item
       (ManagerImpl.invoke_callbacks AddToCart RemoveFromCart changes)
     = Z.to_nat (- delta).
Proof.
  induction changes as [| [k v] changes IH]; intros Hnd Hin; [destruct Hin |].
  cbn [item_ids map fst] in Hnd. fold (item_ids changes) in Hnd.
  apply NoDup_cons in Hnd. destruct Hnd as [Hk Hnd].
  rewrite invoke_callbacks_cons, add_calls_app, remove_calls_app.
  destruct (calls_of_entry item k v) as [-> ->].
  destruct Hin as [Heq | Hin].
  - injection Heq as -> ->.
    destruct (invoke_callbacks_absent item changes Hk) as [-> ->].
    unfold item_eqb. rewrite Z.eqb_refl. split; lia.
  - destruct (IH Hnd Hin) as [-> ->].
    assert (E : item_eqb k item = false).
    { unfold item_eqb. apply Z.eqb_neq. intros Heq. apply Hk.
      rewrite Heq. apply list_elem_of_In.
      unfold item_ids. apply in_map_iff. now exists (item, delta). }
    rewrite E. split; reflexivity.
Qed.

(** The loop of old_shelf_manager.py is the one of shelf_manager.py with
    the two callbacks exchanged. *)
Lemma invoke_callbacks_swap changes :
  ManagerImpl.invoke_callbacks RemoveFromCart AddToCart changes
  = map swap_callback
      (ManagerImpl.invoke_callbacks AddToCart RemoveFromCart changes).
Proof.
  unfold ManagerImpl.invoke_callbacks.
  induction changes as [| [k v] changes IH]; [reflexivity |].
  cbn [flat_map]. rewrite map_app, <- IH. f_equal.
  destruct (0 <? v)%Z; [| destruct (v <? 0)%Z]; try reflexivity.
  - induction (Z.to_nat v) as [| n IHn]; [reflexivity |].
    cbn [repeat map swap_callback]. now f_equal.
  - induction (Z.to_nat (Z.abs v)) as [| n IHn]; [reflexivity |].
    cbn [repeat map swap_callback]. now f_equal.
Qed.

Lemma calls_of_swap item tr :
  add_calls item (map swap_callback tr) = remove_calls item tr
  /\ remove_calls item (map swap_callback tr) = add_calls item tr.
Proof.
  unfold add_calls, remove_calls.
  induction tr as [| e tr [IHa IHr]]; [split; reflexivity |].
  destruct e as [l | i | i]; cbn [map swap_callback List.filter
                                  is_add_of is_remove_of].
  - split; assumption.
  - split; [| exact IHr || idtac]; destruct (item_eqb i item);
      cbn [length]; congruence.
  - split; destruct (item_eqb i item); cbn [length]; congruence.
Qed.

End ShelfUpdate.

(** ** Routing to an existing shelf: which callback a change invokes *)

Section ExistingShelf.
Import ManagerImpl.

Variable parse_float : string -> option Q.
Variable table : gmap string (list Slot).
Variable cb_positive cb_negative : Item -> event.

Lemma route_existing (self : ShelfManager) (now : datetime) (mac : string)
    (raw_data : list json) (xs : list Q) (shelf : Shelf) :
  _mac_to_shelf_map self !! mac = Some shelf ->
  length raw_data = NUM_SLOTS_PER_SHELF ->
  Forall2 (fun p x => ManagerImpl.float parse_float p = Ok x) raw_data xs ->
  ManagerImpl.route parse_float table cb_positive cb_negative self now
    (message mac raw_data)
  = let o := ShelfImpl.update shelf (map Some xs) now in
    let self' :=
      with_mac_to_shelf_map self
        (<[mac := post o]> (_mac_to_shelf_map self)) in
    match ret o with
    | Raise e => {| post := self'; trace := trace o; ret := Raise e |}
    | Ok changes =>
        {| post := self';
           trace := trace o
                    ++ invoke_callbacks cb_positive cb_negative changes;
           ret := Ok tt |}
    end.
Proof.
  intros Hmap Hlen Hxs. unfold ManagerImpl.route.
  rewrite message_id, message_data, Hlen.
  cbn [Nat.eqb NUM_SLOTS_PER_SHELF negb].
  rewrite (cast_datapoints_numbers _ _ _ _ Hxs).
  unfold dict_contains. cbn [hashable]. rewrite Hmap.
  rewrite bool_decide_eq_true_2 by (now eexists).
  cbn [app]. destruct (ret (ShelfImpl.update shelf (map Some xs) now));
    reflexivity.
Qed.

End ExistingShelf.



(** * Further properties of the code *)

(** ** Slot.update: what it keeps, when it raises *)

Section SlotFrame.
Import SlotImpl.

Lemma length_removelast_cons {A : Type} (x : A) (l : list A) :
  length (List.removelast (x :: l)) = length l.
Proof.
  revert x. induction l as [| y l IH]; intros x; [reflexivity |].
  change (List.removelast (x :: y :: l)) with (x :: List.removelast (y :: l)).
  cbn [length]. now rewrite IH.
Qed.

Lemma update_store_length self w dbg :
  length (_weight_store (post (update self w dbg)))
  = length (_weight_store self).
Proof.
  unfold update. cbn [items set_previous_raw_weight].
  destruct (items self) as [| item rest]; [reflexivity |].
  cbn [_weight_store with_weight_store set_previous_raw_weight
       _conversion_factor _previous_weight_g].
  destruct (median _); [| cbn; apply length_removelast_cons].
  destruct (_previous_weight_g self); [| cbn; apply length_removelast_cons].
  destruct (float_mod _ _); [| cbn; apply length_removelast_cons].
  destruct (Qltb _ _); [cbn; apply length_removelast_cons |].
  match goal with
  | |- context [classify ?s ?i ?d ?r'] =>
      pose proof (classify_keeps_rest s i d r') as Hk;
      destruct (classify s i d r') as [[s' pr] qty]
  end.
  destruct Hk as (_ & _ & _ & Hs & _). cbn. rewrite Hs. cbn.
  apply length_removelast_cons.
Qed.

(** The rolling buffer of a reachable slot always holds
    [CERTAINTY_CONSTANT] values: [update] pushes one and pops one, and no
    other method touches the buffer. *)
Theorem weight_store_length_constant (s : Slot) :
  reachable s -> length (_weight_store s) = CERTAINTY_CONSTANT.
Proof.
  induction 1 as [its | s w dbg _ IH | s w _ IH | s w _ IH | s f _ IH
                 | s z l k _ IH].
  - reflexivity.
  - now rewrite update_store_length.
  - exact IH.
  - exact IH.
  - exact IH.
  - unfold calc_conversion_factor. destruct (Qeq_bool l z); exact IH.
Qed.

Lemma weight_store_length_constant_witness :
  length (_weight_store (fst (feed fresh_slot [200; 50000; 13]%Q))) = 2%nat.
Proof.
  apply (weight_store_length_constant
           (fst (feed fresh_slot [200; 50000; 13]%Q))).
  apply reach_update, reach_update, reach_update,
    reach_set_previous_weight, reach_init.
Defined.

(** Whatever [update] does, and also when it raises, it leaves the items
    and the conversion factor of the slot alone and records the reading as
    the previous raw weight. *)
Theorem update_frame (self : Slot) (w : Q) (dbg : bool) :
  items (post (update self w dbg)) = items self
  /\ _conversion_factor (post (update self w dbg)) = _conversion_factor self
  /\ _previous_raw_weight (post (update self w dbg)) = Some w.
Proof.
  unfold update. cbn [items set_previous_raw_weight].
  destruct (items self) as [| item rest] eqn:Hitems;
    [cbn; now rewrite Hitems |].
  cbn [_weight_store with_weight_store set_previous_raw_weight
       _conversion_factor _previous_weight_g].
  destruct (median _); [| cbn; now rewrite Hitems].
  destruct (_previous_weight_g self); [| cbn; now rewrite Hitems].
  destruct (float_mod _ _); [| cbn; now rewrite Hitems].
  destruct (Qltb _ _); [cbn; now rewrite Hitems |].
  match goal with
  | |- context [classify ?s ?i ?d ?r'] =>
      pose proof (classify_keeps_rest s i d r') as Hk;
      destruct (classify s i d r') as [[s' pr] qty]
  end.
  destruct Hk as (Hi & _ & Hc & _ & Hr). cbn. rewrite Hi, Hc, Hr. cbn.
  now rewrite Hitems.
Qed.

(** A slot that was never given a previous weight cannot be updated: the
    subtraction from [None] raises [TypeError], after the buffer has already
    advanced. *)
Theorem update_without_previous_weight (self : Slot) (item : Item)
    (rest : list Item) (w : Q) (dbg : bool) :
  items self = item :: rest ->
  _weight_store self <> [] ->
  _previous_weight_g self = None ->
  ret (update self w dbg) = Raise TypeError
  /\ _weight_store (post (update self w dbg)) = advanced_store self w
  /\ _previous_weight_g (post (update self w dbg)) = None.
Proof.
  intros Hitems Hstore Hprev. unfold update.
  cbn [items set_previous_raw_weight]. rewrite Hitems.
  cbn [_weight_store with_weight_store set_previous_raw_weight
       _conversion_factor _previous_weight_g].
  assert (Hmed : exists m,
             median (List.removelast
                       ((w * _conversion_factor self)%Q :: _weight_store self))
             = Ok m).
  { unfold median.
    assert (Hlen : length (sorted (List.removelast
                     ((w * _conversion_factor self)%Q :: _weight_store self)))
                   <> 0%nat).
    { assert (Hs : forall l, length (sorted l) = length l).
      { assert (Hi : forall x l, length (insort x l) = S (length l)).
        { intros x l. induction l as [| y l IH]; [reflexivity |].
          cbn [insort]. destruct (Qle_bool x y); cbn [length]; congruence. }
        induction l as [| y l IH]; [reflexivity |].
        cbn [sorted fold_right]. fold (sorted l). now rewrite Hi, IH. }
      rewrite Hs, length_removelast_cons.
      destruct (_weight_store self); [contradiction | discriminate]. }
    destruct (Nat.eqb_spec (length (sorted (List.removelast
                ((w * _conversion_factor self)%Q :: _weight_store self)))) 0);
      [contradiction |].
    destruct (Nat.odd _); eexists; reflexivity. }
  destruct Hmed as [m Hm]. rewrite Hm, Hprev. cbn.
  rewrite Hprev. repeat split; reflexivity.
Qed.

Lemma update_without_previous_weight_witness :
  ret (update (__init__ (database.mock 1)) 200 false) = Raise TypeError.
Proof.
  destruct (update_without_previous_weight (__init__ (database.mock 1))
              (database.mock_item 1 "Little Bites Chocolate" "123456789012"
                 2.10 100 47 10 "pouch") [] 200 false) as [H _].
  - reflexivity.
  - discriminate.
  - reflexivity.
  - exact H.
Defined.

(** An item whose average weight is zero makes every update of its slot
    raise [ZeroDivisionError] at the modulo, whatever the reading. *)
Theorem update_zero_weight_item (self : Slot) (item : Item)
    (rest : list Item) (w p m : Q) (dbg : bool) :
  items self = item :: rest ->
  median (advanced_store self w) = Ok m ->
  _previous_weight_g self = Some p ->
  (avg_weight item == 0)%Q ->
  ret (update self w dbg) = Raise ZeroDivisionError
  /\ _previous_weight_g (post (update self w dbg)) = Some p.
Proof.
  intros Hitems Hmed Hprev Havg. unfold update.
  cbn [items set_previous_raw_weight]. rewrite Hitems.
  cbn [_weight_store with_weight_store set_previous_raw_weight
       _conversion_factor _previous_weight_g].
  unfold advanced_store in Hmed. rewrite Hmed, Hprev.
  unfold float_mod. apply Qeq_bool_iff in Havg. rewrite Havg. cbn.
  now rewrite Hprev.
Qed.

Lemma update_zero_weight_item_witness :
  let free := database.mock_item 99 "Sample" "" 0 1 0 0 "" in
  ret (update (set_previous_weight (__init__ [free]) (Some 0%Q)) 200 false)
  = Raise ZeroDivisionError.
Proof.
  intros free.
  destruct (update_zero_weight_item
              (set_previous_weight (__init__ [free]) (Some 0%Q))
              free [] 200 0 ((0 + 88.00) / 2)%Q false) as [H _].
  - reflexivity.
  - reflexivity.
  - reflexivity.
  - reflexivity.
  - exact H.
Defined.

End SlotFrame.

(** ** Slot.update on streams of readings *)

Section SlotStreams.
Import SlotImpl.

Lemma feed_cons_fst self w rest :
  fst (feed self (w :: rest)) = fst (feed (post (update self w false)) rest).
Proof. cbn [feed]. destruct (feed _ rest). reflexivity. Qed.

Lemma Qle_bool_false x y : (y < x)%Q -> Qle_bool x y = false.
Proof.
  intros H. destruct (Qle_bool x y) eqn:E; [| reflexivity].
  apply Qle_bool_iff in E. exfalso. exact (Qlt_not_le _ _ H E).
Qed.

(** A change that is not near a whole number of items (the remainder lies
    strictly between the deviation and the item weight less the deviation)
    is no event: delta 0, latches and counter untouched; the previous
    weight still moves on to the evicted value. *)
Theorem partial_change_ignored (self : Slot) (item : Item)
    (rest : list Item) (w m p r : Q) :
  items self = item :: rest ->
  median (advanced_store self w) = Ok m ->
  _previous_weight_g self = Some p ->
  float_mod (m - p) (avg_weight item) = Ok r ->
  (Qabs (m - p) <= EXTRANEOUS_VALUE_LIMIT)%Q ->
  (std_weight item < Qabs r)%Q ->
  (Qabs r < avg_weight item - std_weight item)%Q ->
  update self w false
  = {| post :=
         set_previous_weight
           (with_weight_store (set_previous_raw_weight self (Some w))
              (advanced_store self w))
           (Some (evicted self w));
       trace := [];
       ret := Ok [(item, 0%Z)] |}.
Proof.
  intros Hitems Hmed Hprev Hmod Hsmall Hlow Hhigh. unfold update.
  cbn [items set_previous_raw_weight]. rewrite Hitems.
  cbn [_weight_store with_weight_store set_previous_raw_weight
       _conversion_factor _previous_weight_g].
  unfold advanced_store in Hmed. rewrite Hmed, Hprev, Hmod.
  rewrite (not_extraneous _ Hsmall). unfold classify.
  rewrite (Qle_bool_false _ _ Hhigh), (Qle_bool_false _ _ Hlow). reflexivity.
Qed.

Lemma partial_change_ignored_witness :
  ret (update fresh_slot 50 false)
  = Ok [(database.mock_item 1 "Little Bites Chocolate" "123456789012"
           2.10 100 47 10 "pouch", 0%Z)].
Proof.
  rewrite (partial_change_ignored fresh_slot
             (database.mock_item 1 "Little Bites Chocolate" "123456789012"
                2.10 100 47 10 "pouch")
             [] 50 ((0 + 22.00) / 2)%Q 0 (2200 # 200)%Q).
  - reflexivity.
  - reflexivity.
  - reflexivity.
  - reflexivity.
  - reflexivity.
  - discriminate.
  - reflexivity.
  - reflexivity.
Defined.

Lemma extraneous_cycle (s : Slot) (item : Item) (rest : list Item)
    (r p : Q) :
  items s = item :: rest ->
  _weight_store s = [(r * _conversion_factor s)%Q; (r * _conversion_factor s)%Q] ->
  _previous_weight_g s = Some p ->
  ~ (avg_weight item == 0)%Q ->
  (EXTRANEOUS_VALUE_LIMIT < Qabs (r * _conversion_factor s - p))%Q ->
  update s r false
  = {| post := with_weight_store (set_previous_raw_weight s (Some r))
                 [(r * _conversion_factor s)%Q; (r * _conversion_factor s)%Q];
       trace := [Print MsgExtraneous];
       ret := Ok [] |}.
Proof.
  intros Hi Hs Hp Ha Hbig.
  rewrite (update_two s item rest _ _ p r (r * _conversion_factor s - p)%Q
             Hi Hs Hp Ha) by field.
  cbn zeta. apply Qltb_lt in Hbig. now rewrite Hbig.
Qed.

(** A slot whose buffer has come to rest more than the extraneous limit
    away from its previous weight never reports again: every further
    reading at that weight is discarded, and the previous weight, which only
    an accepted reading moves, stays where it is. *)
Theorem extraneous_slot_stays_stuck (item : Item) (rest : list Item)
    (r p : Q) (n : nat) (s : Slot) :
  items s = item :: rest ->
  _weight_store s
  = [(r * _conversion_factor s)%Q; (r * _conversion_factor s)%Q] ->
  _previous_weight_g s = Some p ->
  ~ (avg_weight item == 0)%Q ->
  (EXTRANEOUS_VALUE_LIMIT < Qabs (r * _conversion_factor s - p))%Q ->
  snd (feed s (repeat r n)) = repeat (Ok []) n
  /\ _previous_weight_g (fst (feed s (repeat r n))) = Some p.
Proof.
  revert s. induction n as [| n IH]; intros s Hi Hs Hp Ha Hbig.
  - split; [reflexivity | exact Hp].
  - cbn [repeat]. rewrite feed_cons, feed_cons_fst.
    rewrite (extraneous_cycle s item rest r p Hi Hs Hp Ha Hbig).
    cbn [post ret].
    destruct (IH (with_weight_store (set_previous_raw_weight s (Some r))
                    [(r * _conversion_factor s)%Q;
                     (r * _conversion_factor s)%Q])) as [IH1 IH2];
      try assumption; try reflexivity.
    now rewrite IH1, IH2.
Qed.

Lemma extraneous_slot_stays_stuck_witness :
  let s := fst (feed fresh_slot [20000; 20000]%Q) in
  snd (feed s (repeat 20000%Q 5)) = repeat (Ok []) 5
  /\ _previous_weight_g (fst (feed s (repeat 20000%Q 5))) = Some 0%Q.
Proof.
  intros s.
  apply (extraneous_slot_stays_stuck
           (database.mock_item 1 "Little Bites Chocolate" "123456789012"
              2.10 100 47 10 "pouch") [] 20000 0 5 s).
  - reflexivity.
  - reflexivity.
  - reflexivity.
  - discriminate.
  - reflexivity.
Defined.

(** Once the buffer and the previous weight agree with the reading, a
    constant reading reports delta 0 for ever. *)
Theorem constant_reading_reports_nothing (item : Item) (s : Slot) (r : Q)
    (n : nat) :
  (0 < avg_weight item)%Q ->
  items s = [item] ->
  _weight_store s
  = [(r * _conversion_factor s)%Q; (r * _conversion_factor s)%Q] ->
  _previous_weight_g s = Some (r * _conversion_factor s)%Q ->
  snd (feed s (repeat r n)) = repeat (Ok [(item, 0%Z)]) n.
Proof.
  intros Hpos Hi Hs Hp. exact (steady_feed item Hpos n s r Hi Hs Hp).
Qed.

Lemma constant_reading_reports_nothing_witness :
  let s := fst (feed fresh_slot [200; 200; 200]%Q) in
  snd (feed s (repeat 200%Q 3))
  = repeat (Ok [(database.mock_item 1 "Little Bites Chocolate"
                   "123456789012" 2.10 100 47 10 "pouch", 0%Z)]) 3.
Proof.
  intros s.
  apply (constant_reading_reports_nothing
           (database.mock_item 1 "Little Bites Chocolate" "123456789012"
              2.10 100 47 10 "pouch") s 200 3).
  - reflexivity.
  - reflexivity.
  - reflexivity.
  - reflexivity.
Defined.

End SlotStreams.

(** ** Slot.update: an item put back *)

Section StepUp.
Import SlotImpl.











End StepUp.

(** ** Shelf *)

Section ShelfProperties.

(** [Shelf.update] keeps the number of slots, stamps the shelf with the
    time of the update whatever happens to the slots, invokes nothing of
    the cart, and returns at most one pair per item. *)
Theorem shelf_update_keeps_slots_and_keys (self : Shelf)
    (raw_weights : list (option Q)) (now : datetime) :
  length (slots (post (ShelfImpl.update self raw_weights now)))
  = length (slots self)
  /\ last_report_time (post (ShelfImpl.update self raw_weights now)) = now
  /\ Forall (fun e => is_cart_call e = false)
       (trace (ShelfImpl.update self raw_weights now))
  /\ forall d, ret (ShelfImpl.update self raw_weights now) = Ok d ->
               NoDup (item_ids d).
Proof.
  destruct (shelf_update_invariant self raw_weights now) as (H1 & H2 & H3).
  repeat split; assumption || reflexivity.
Qed.

Lemma shelf_update_keeps_slots_and_keys_witness :
  let shelf := ShelfImpl.__init__ (repeat (SlotImpl.__init__ (database.mock 1)) 4)
                 noon (repeat (Some 0%Q) 4) in
  NoDup (item_ids [(database.mock_item 1 "Little Bites Chocolate"
                      "123456789012" 2.10 100 47 10 "pouch", 2%Z)]).
Proof.
  intros shelf.
  destruct (shelf_update_keeps_slots_and_keys shelf
              [Some 200; Some 200; Some 0; Some 0]%Q noon) as (_ & _ & _ & H).
  apply H. reflexivity.
Defined.

Lemma update_iteration_absent (raw_weights : list (option Q)) (i j : nat)
    (acc : outcome (list Slot) (list (Item * Z))) :
  raw_weights !! i = Some None ->
  post (ShelfImpl.update_iteration raw_weights acc j) !! i = post acc !! i.
Proof.
  intros Hi. unfold ShelfImpl.update_iteration.
  destruct (ret acc); [| reflexivity].
  destruct (post acc !! j) as [slot |] eqn:Hj; [| reflexivity].
  destruct (raw_weights !! j) as [[w |] |] eqn:Hw; try reflexivity.
  cbn [post]. apply list_lookup_insert_ne. congruence.
Qed.

(** A slot whose reading is absent ([None]) is not touched by
    [Shelf.update], whatever the other readings do. *)
Theorem shelf_update_absent_reading (self : Shelf)
    (raw_weights : list (option Q)) (now : datetime) (i : nat) :
  raw_weights !! i = Some None ->
  slots (post (ShelfImpl.update self raw_weights now)) !! i = slots self !! i.
Proof.
  intros Hi. unfold ShelfImpl.update. cbn [post slots].
  generalize (seq 0 4).
  assert (H : forall l acc,
             post (fold_left (ShelfImpl.update_iteration raw_weights) l acc) !! i
             = post acc !! i).
  { induction l as [| j l IH]; intros acc; [reflexivity |].
    cbn [fold_left]. rewrite IH. now apply update_iteration_absent. }
  intros l. apply H.
Qed.

Lemma shelf_update_absent_reading_witness :
  let shelf := ShelfImpl.__init__ (repeat (SlotImpl.__init__ (database.mock 1)) 4)
                 noon (repeat (Some 0%Q) 4) in
  slots (post (ShelfImpl.update shelf [Some 200%Q; None; Some 0%Q; Some 0%Q]
                 noon)) !! 1%nat
  = slots shelf !! 1%nat.
Proof.
  intros shelf.
  apply (shelf_update_absent_reading shelf
           [Some 200%Q; None; Some 0%Q; Some 0%Q] noon 1).
  reflexivity.
Defined.

(** With four absent readings nothing but the report time changes and
    nothing is returned, for a shelf of any number of slots. *)
Theorem shelf_update_all_absent (self : Shelf) (now : datetime) :
  ShelfImpl.update self [None; None; None; None] now
  = {| post := {| slots := slots self; last_report_time := now |};
       trace := [];
       ret := Ok [] |}.
Proof.
  unfold ShelfImpl.update. cbn [seq fold_left].
  unfold ShelfImpl.update_iteration. cbn [ret post trace].
  destruct (slots self) as [| s0 [| s1 [| s2 [| s3 rest]]]]; reflexivity.
Qed.

(** A list of readings shorter than the shelf is an [IndexError], raised
    at the first slot without a reading; with no reading at all no slot has
    been touched. *)
Theorem shelf_update_no_readings (self : Shelf) (now : datetime) :
  slots self <> [] ->
  ShelfImpl.update self [] now
  = {| post := {| slots := slots self; last_report_time := now |};
       trace := [];
       ret := Raise IndexError |}.
Proof.
  intros Hne. unfold ShelfImpl.update. cbn [seq fold_left].
  unfold ShelfImpl.update_iteration. cbn [ret post trace].
  destruct (slots self) as [| s0 rest]; [contradiction | reflexivity].
Qed.

Lemma shelf_update_no_readings_witness :
  ret (ShelfImpl.update
         (ShelfImpl.__init__ (repeat (SlotImpl.__init__ []) 4) noon []) [] noon)
  = Raise IndexError.
Proof.
  rewrite shelf_update_no_readings; [reflexivity | discriminate].
Defined.

Lemma item_eqb_trans_false a b c :
  item_eqb a b = true -> item_eqb a c = item_eqb b c.
Proof.
  unfold item_eqb. intros H. apply Z.eqb_eq in H. now rewrite H.
Qed.

Lemma dict_add_quantity (d : list (Item * Z)) (k item : Item) (v : Z) :
  quantity_for (ShelfImpl.dict_add d k v) item
  = (quantity_for d item + (if item_eqb k item then v else 0))%Z.
Proof.
  induction d as [| [k' v'] d IH].
  - cbn. destruct (item_eqb k item); lia.
  - cbn [ShelfImpl.dict_add quantity_for].
    destruct (item_eqb k' k) eqn:Ek.
    + cbn [quantity_for]. rewrite <- (item_eqb_trans_false _ _ item Ek).
      destruct (item_eqb k' item); lia.
    + cbn [quantity_for]. destruct (item_eqb k' item) eqn:Ei; [| exact IH].
      assert (E : item_eqb k item = false).
      { unfold item_eqb in *. apply Z.eqb_eq in Ei. apply Z.eqb_neq in Ek.
        apply Z.eqb_neq. congruence. }
      rewrite E. lia.
Qed.

(** The result dictionary adds up: after the pairs of a slot are merged
    in, the quantity held for an item is what was held before plus the sum
    of the quantities the pairs give for that item (the same item in
    several slots is counted once, with the total). *)
Theorem dict_add_all_totals (l d : list (Item * Z)) (item : Item) :
  quantity_for (ShelfImpl.dict_add_all d l) item
  = (quantity_for d item + total_for item l)%Z.
Proof.
  unfold ShelfImpl.dict_add_all. revert d.
  induction l as [| [k v] l IH]; intros d; [cbn; lia |].
  cbn [fold_left fst snd total_for fold_right].
  rewrite IH, dict_add_quantity. fold (total_for item l).
  destruct (item_eqb k item); lia.
Qed.

Lemma init_fold_lookup (ws : list (option Q)) (i : nat) :
  forall (j : nat) (slots : list Slot),
    fold_left
      (fun slots i =>
         match ws !! i with
         | Some (Some w) =>
             alter (fun s => SlotImpl.set_previous_weight s (Some w)) i slots
         | _ => slots
         end)
      (seq 0 j) slots !! i
    = if (i <? j)%nat then with_initial_weight ws i <$> slots !! i
      else slots !! i.
Proof.
  induction j as [| j IH]; intros slots; [reflexivity |].
  rewrite seq_S, fold_left_app. cbn [fold_left Nat.add].
  set (done := fold_left _ (seq 0 j) slots) in *.
  assert (Hdone : done !! i
                  = if (i <? j)%nat then with_initial_weight ws i <$> slots !! i
                    else slots !! i) by apply IH.
  destruct (Nat.eq_dec i j) as [-> | Hne].
  - rewrite Nat.ltb_irrefl in Hdone.
    assert (E : (j <? S j)%nat = true) by (apply Nat.ltb_lt; lia).
    rewrite E. unfold with_initial_weight.
    destruct (ws !! j) as [[w |] |].
    + rewrite list_lookup_alter_eq, Hdone. reflexivity.
    + rewrite Hdone. now destruct (slots !! j).
    + rewrite Hdone. now destruct (slots !! j).
  - assert (E : (i <? S j)%nat = (i <? j)%nat).
    { destruct (Nat.ltb_spec i j), (Nat.ltb_spec i (S j)); lia || reflexivity. }
    rewrite E, <- Hdone.
    destruct (ws !! j) as [[w |] |]; try reflexivity.
    apply list_lookup_alter_ne. congruence.
Qed.

(** [Shelf.__init__] gives every slot that has an initial reading that raw
    reading as its previous weight and leaves the other slots as they are;
    the report time is the fixed date of the source, not [created_time]. *)
Theorem shelf_init_previous_weights (table_slots : list Slot)
    (created_time : datetime) (initial_weights : list (option Q)) (i : nat)
    (slot : Slot) :
  table_slots !! i = Some slot ->
  slots (ShelfImpl.__init__ table_slots created_time initial_weights) !! i
  = Some (with_initial_weight initial_weights i slot)
  /\ last_report_time
       (ShelfImpl.__init__ table_slots created_time initial_weights)
     = {| year := 2022; month := 2; day := 2;
          hour := 2; minute := 2; second := 2; microsecond := 2 |}.
Proof.
  intros Hslot. split; [| reflexivity].
  unfold ShelfImpl.__init__. cbn [slots].
  rewrite init_fold_lookup, Hslot. cbn [fmap option_fmap option_map].
  destruct (Nat.ltb_spec i (Nat.min (length initial_weights)
                              (length table_slots))) as [Hlt | Hge];
    [reflexivity |].
  f_equal. unfold with_initial_weight.
  assert (Hi : (i < length table_slots)%nat)
    by (apply lookup_lt_is_Some; now exists slot).
  rewrite (lookup_ge_None_2 initial_weights i) by lia. reflexivity.
Qed.

Lemma shelf_init_previous_weights_witness :
  slots (ShelfImpl.__init__ (repeat (SlotImpl.__init__ []) 4) noon
           [Some 5%Q; None]) !! 0%nat
  = Some (SlotImpl.set_previous_weight (SlotImpl.__init__ []) (Some 5%Q)).
Proof.
  destruct (shelf_init_previous_weights (repeat (SlotImpl.__init__ []) 4)
              noon [Some 5%Q; None] 0 (SlotImpl.__init__ [])) as [H _].
  - reflexivity.
  - exact H.
Defined.

End ShelfProperties.

(** ** Routing: the sign contract of old_shelf_manager.py, malformed and
    first messages *)

(** old_shelf_manager.py keeps the canonical contract: for every
    (item, delta) pair that the shelf update returns, [old_on_shelf_data_cb]
    invokes [remove_from_cart_cb] [delta] times when [delta > 0] and
    [add_to_cart_cb] [abs(delta)] times when [delta < 0], and the other
    callback not at all for that item. *)
Theorem old_callback_contract (parse_float : string -> option Q)
    (self : ShelfManager) (now : datetime) (mac : string)
    (raw_data : list json) (xs : list Q) (shelf : Shelf)
    (changes : list (Item * Z)) (item : Item) (delta : Z) :
  _mac_to_shelf_map self !! mac = Some shelf ->
  length raw_data = NUM_SLOTS_PER_SHELF ->
  Forall2 (fun p x => ManagerImpl.float parse_float p = Ok x) raw_data xs ->
  ret (ShelfImpl.update shelf (map Some xs) now) = Ok changes ->
  In (item, delta) changes ->
  remove_calls item
    (trace (old_shelf_manager.old_on_shelf_data_cb parse_float self now
              (message mac raw_data)))
  = Z.to_nat delta
  /\ add_calls item
       (trace (old_shelf_manager.old_on_shelf_data_cb parse_float self now
                 (message mac raw_data)))
     = Z.to_nat (- delta).
Proof.
  intros Hmap Hlen Hxs Hret Hin.
  unfold old_shelf_manager.old_on_shelf_data_cb.
  rewrite (route_existing parse_float _ _ _ self now mac raw_data xs shelf
             Hmap Hlen Hxs).
  cbn zeta. rewrite Hret. cbn [trace].
  destruct (shelf_update_invariant shelf (map Some xs) now)
    as (_ & Hprints & Hnodup).
  destruct (calls_of_prints item _ Hprints) as [Ha Hr].
  destruct (invoke_callbacks_counts item delta changes (Hnodup _ Hret) Hin)
    as [Ha' Hr'].
  rewrite invoke_callbacks_swap, add_calls_app, remove_calls_app, Ha, Hr.
  destruct (calls_of_swap item
              (ManagerImpl.invoke_callbacks AddToCart RemoveFromCart changes))
    as [-> ->].
  rewrite Ha', Hr'. split; reflexivity.
Qed.

Lemma old_callback_contract_witness :
  let item := database.mock_item 14 "Little Bites Blueberry" "123456789012"
                2.10 100 47 10 "pouch" in
  let tr := trace (old_shelf_manager.old_on_shelf_data_cb no_strings
                     registered_manager noon
                     (message "80:65:99:49:EF:8E"
                        [JNumber 0; JNumber 200; JNumber 0; JNumber 0])) in
  remove_calls item tr = 1%nat /\ add_calls item tr = 0%nat.
Proof.
  intros item tr.
  eapply (old_callback_contract no_strings registered_manager noon
            "80:65:99:49:EF:8E"
            [JNumber 0; JNumber 200; JNumber 0; JNumber 0]
            [0; 200; 0; 0]%Q _ _ item 1%Z).
  - reflexivity.
  - reflexivity.
  - repeat constructor.
  - reflexivity.
  - right. left. reflexivity.
Defined.

Section RoutingShapes.
Import ManagerImpl.

Variable parse_float : string -> option Q.
Variable table : gmap string (list Slot).
Variable cb_positive cb_negative : Item -> event.

#[local] Abbreviation route :=
  (ManagerImpl.route parse_float table cb_positive cb_negative).

(** A message without "id" or "data", or whose data is not a list of four
    elements, is dropped: one line is printed, the manager is unchanged,
    nothing is raised and no callback is invoked. *)
Theorem malformed_message_dropped (self : ShelfManager) (now : datetime)
    (json_data : gmap string json) :
  json_data !! "id" = None
  \/ json_data !! "data" = None
  \/ (exists v, json_data !! "data" = Some v
                /\ forall l, v = JArray l -> length l <> NUM_SLOTS_PER_SHELF) ->
  post (route self now json_data) = self
  /\ ret (route self now json_data) = Ok tt
  /\ (trace (route self now json_data) = [Print MsgMissingField]
      \/ trace (route self now json_data) = [Print MsgInvalidData]).
Proof.
  intros H. unfold ManagerImpl.route.
  destruct (json_data !! "id") as [mac |];
    [| repeat split; auto].
  destruct (json_data !! "data") as [raw |];
    [| repeat split; auto].
  destruct H as [H | [H | (v & Hv & Hlen)]]; try discriminate.
  injection Hv as <-.
  destruct raw as [| b | x | s | l | members]; try (repeat split; auto; fail).
  destruct (Nat.eqb_spec (length l) NUM_SLOTS_PER_SHELF) as [E | E].
  - exfalso. exact (Hlen l eq_refl E).
  - cbn [negb]. repeat split; auto.
Qed.

(** The first message of an identifier of the table creates the shelf from
    the table's slots; its readings only become the previous weights, and
    no callback is invoked. *)
Theorem first_message_creates_shelf (self : ShelfManager) (now : datetime)
    (mac : string) (raw_data : list json) (xs : list Q)
    (table_slots : list Slot) :
  table !! mac = Some table_slots ->
  _mac_to_shelf_map self !! mac = None ->
  length raw_data = NUM_SLOTS_PER_SHELF ->
  Forall2 (fun p x => ManagerImpl.float parse_float p = Ok x) raw_data xs ->
  route self now (message mac raw_data)
  = {| post :=
         with_mac_to_shelf_map self
           (<[mac := ShelfImpl.__init__ table_slots now (map Some xs)]>
              (_mac_to_shelf_map self));
       trace := [Print MsgNewShelf];
       ret := Ok tt |}.
Proof.
  intros Htable Hmap Hlen Hxs. unfold ManagerImpl.route.
  rewrite message_id, message_data, Hlen.
  cbn [Nat.eqb NUM_SLOTS_PER_SHELF negb].
  rewrite (cast_datapoints_numbers _ _ _ _ Hxs).
  unfold dict_contains. cbn [hashable]. rewrite Hmap, Htable.
  rewrite bool_decide_eq_false_2 by (intros [? ?]; discriminate).
  rewrite bool_decide_eq_true_2 by (now eexists).
  reflexivity.
Qed.

(** What a routed message can make of the manager. *)
Lemma route_cases (self : ShelfManager) (now : datetime)
    (json_data : gmap string json) :
  (post (route self now json_data) = self
   /\ Forall (fun e => is_cart_call e = false)
        (trace (route self now json_data)))
  \/ (exists mac table_slots data,
        table !! mac = Some table_slots
        /\ post (route self now json_data)
           = with_mac_to_shelf_map self
               (<[mac := ShelfImpl.__init__ table_slots now data]>
                  (_mac_to_shelf_map self))
        /\ Forall (fun e => is_cart_call e = false)
             (trace (route self now json_data)))
  \/ (exists mac shelf data,
        _mac_to_shelf_map self !! mac = Some shelf
        /\ post (route self now json_data)
           = with_mac_to_shelf_map self
               (<[mac := post (ShelfImpl.update shelf data now)]>
                  (_mac_to_shelf_map self))
        /\ trace (route self now json_data)
           = trace (ShelfImpl.update shelf data now)
             ++ match ret (ShelfImpl.update shelf data now) with
                | Ok changes => invoke_callbacks cb_positive cb_negative changes
                | Raise _ => []
                end).
Proof.
  unfold ManagerImpl.route.
  destruct (json_data !! "id") as [mac |];
    [| left; split; [reflexivity | repeat constructor]].
  destruct (json_data !! "data") as [raw |];
    [| left; split; [reflexivity | repeat constructor]].
  destruct raw as [| b | x | s | l | members];
    try (left; split; [reflexivity | repeat constructor]).
  destruct (negb _); [left; split; [reflexivity | repeat constructor] |].
  destruct (cast_datapoints_cases parse_float l) as [(xs & Hxs) | Hex].
  2:{ rewrite (cast_datapoints_failure _ _ _ Hex).
      left. split; [reflexivity | constructor]. }
  rewrite (cast_datapoints_numbers _ _ _ _ Hxs). cbn [app].
  unfold dict_contains.
  destruct mac as [| b | x | s | els | members]; cbn [hashable];
    try (left; split; [reflexivity | repeat constructor]).
  destruct (_mac_to_shelf_map self !! s) as [shelf |] eqn:Hmap.
  - rewrite bool_decide_eq_true_2 by (now eexists).
    right. right. exists s, shelf, (map Some xs).
    split; [exact Hmap |].
    destruct (ret (ShelfImpl.update shelf (map Some xs) now)); cbn;
      rewrite ?app_nil_r; split; reflexivity.
  - rewrite bool_decide_eq_false_2 by (intros [? ?]; discriminate).
    destruct (table !! s) as [table_slots |] eqn:Htable.
    + rewrite bool_decide_eq_true_2 by (now eexists).
      right. left. exists s, table_slots, (map Some xs).
      split; [exact Htable |]. split; [reflexivity | repeat constructor].
    + rewrite bool_decide_eq_false_2 by (intros [? ?]; discriminate).
      left. split; [reflexivity | repeat constructor].
Qed.

(** Whatever the message, the manager afterwards holds shelves of
    identifiers of the table only: a shelf is never created for an
    identifier outside it. *)
Theorem route_keeps_registered_only (self : ShelfManager) (now : datetime)
    (json_data : gmap string json) :
  registered_only table self ->
  registered_only table (post (route self now json_data)).
Proof.
  intros Hreg.
  destruct (route_cases self now json_data)
    as [[-> _] | [(mac & ts & data & Ht & -> & _)
                 | (mac & shelf & data & Hm & -> & _)]].
  - exact Hreg.
  - intros mac' Hsome. cbn in Hsome.
    destruct (decide (mac = mac')) as [<- | Hne];
      [exists ts; exact Ht |].
    rewrite lookup_insert_ne in Hsome by exact Hne. now apply Hreg.
  - intros mac' Hsome. cbn in Hsome.
    destruct (decide (mac = mac')) as [<- | Hne];
      [apply Hreg; exists shelf; exact Hm |].
    rewrite lookup_insert_ne in Hsome by exact Hne. now apply Hreg.
Qed.

End RoutingShapes.

Lemma malformed_message_dropped_witness :
  ret (shelf_manager.on_shelf_data_cb no_strings ManagerImpl.__init__ noon
         (message "MAC_1" [JNumber 1; JNumber 2; JNumber 3]))
  = Ok tt.
Proof.
  destruct (malformed_message_dropped no_strings shelf_manager.SHELF_ITEM_MAP
              AddToCart RemoveFromCart ManagerImpl.__init__ noon
              (message "MAC_1" [JNumber 1; JNumber 2; JNumber 3]))
    as (_ & H & _).
  - right. right. exists (JArray [JNumber 1; JNumber 2; JNumber 3]).
    split; [reflexivity |].
    intros l Hl. injection Hl as <-. discriminate.
  - exact H.
Defined.

Lemma first_message_creates_shelf_witness :
  _mac_to_shelf_map
    (post (old_shelf_manager.old_on_shelf_data_cb no_strings
             ManagerImpl.__init__ noon
             (message "MAC_1" [JNumber 1; JNumber 2; JNumber 3; JNumber 4])))
  !! "MAC_1"
  = Some (ShelfImpl.__init__ (repeat (SlotImpl.__init__ []) 4) noon
            [Some 1; Some 2; Some 3; Some 4]%Q).
Proof.
  unfold old_shelf_manager.old_on_shelf_data_cb.
  rewrite (first_message_creates_shelf no_strings
             old_shelf_manager.SHELF_ITEM_MAP RemoveFromCart AddToCart
             ManagerImpl.__init__ noon "MAC_1"
             [JNumber 1; JNumber 2; JNumber 3; JNumber 4] [1; 2; 3; 4]%Q
             (repeat (SlotImpl.__init__ []) 4)).
  - cbn. apply lookup_insert_eq.
  - reflexivity.
  - reflexivity.
  - reflexivity.
  - repeat constructor.
Defined.

Lemma route_keeps_registered_only_witness :
  registered_only old_shelf_manager.SHELF_ITEM_MAP registered_manager.
Proof.
  apply (route_keeps_registered_only no_strings
           old_shelf_manager.SHELF_ITEM_MAP RemoveFromCart AddToCart
           ManagerImpl.__init__ noon).
  intros mac [shelf Hshelf]. cbn in Hshelf.
  rewrite lookup_empty in Hshelf. discriminate.
Defined.
